(** * Clarity test tooling: the coverage pipeline and the Wokwi phase tracker

    A shallow embedding of

    - [scripts/run_tests_with_coverage.py] (class [CoverageTestRunner]):
      the stage runners, the coverage parser, the threshold validator and
      the orchestrator [run_all_tests];
    - [test/wokwi/integration_test.py] (class [ClarityIntegrationTest]):
      the phase tracker [update_test_phases] and the loop that feeds it.

    Conventions.  A Python [str] is a [string] (its characters as bytes; all
    labels and trigger patterns of the program are ASCII).  A Python [float]
    is a [spec_float], the Standard Library's specification of IEEE 754
    binary64 values, with its own comparison (so NaN and the infinities are
    there).  A [dict] that is only read by key is a [gmap]; a dict literal
    that is iterated with [.items()] is an association list in insertion
    order.  Exceptions are values of [exn]; code that can raise returns an
    [outcome]. *)

From Stdlib Require Import ZArith Ascii String List Bool Lia.
From Stdlib Require Import Floats.SpecFloat.
From stdpp Require Import base option list gmap strings fin_maps.
Import ListNotations.

Local Open Scope string_scope.
Local Open Scope list_scope.

(** ** Python string builtins used by the two scripts *)

Module PyStr.

(** [s.startswith(p)] *)
Fixpoint startswith (p s : string) : bool :=
  match p, s with
  | EmptyString, _ => true
  | String _ _, EmptyString => false
  | String a p', String b s' => if Ascii.eqb a b then startswith p' s' else false
  end.

(** [p in s] for two strings: [p] occurs in [s] as a contiguous substring. *)
Fixpoint contains (p s : string) : bool :=
  if startswith p s then true
  else match s with
       | EmptyString => false
       | String _ s' => contains p s'
       end.

(** The characters [str.split()] and [str.isspace()] treat as white space
    among the ASCII ones: TAB, LF, VT, FF, CR, FS, GS, RS, US and SPACE. *)
Definition isspace (c : ascii) : bool :=
  let n := nat_of_ascii c in
  ((9 <=? n)%nat && (n <=? 13)%nat) || ((28 <=? n)%nat && (n <=? 32)%nat).

Definition flush (cur : string) (acc : list string) : list string :=
  match cur with
  | EmptyString => acc
  | _ => acc ++ [cur]
  end.

Fixpoint split_ws_aux (s cur : string) (acc : list string) : list string :=
  match s with
  | EmptyString => flush cur acc
  | String c s' =>
      if isspace c then split_ws_aux s' EmptyString (flush cur acc)
      else split_ws_aux s' (cur ++ String c EmptyString) acc
  end.

(** [s.split()]: the maximal runs of non-white-space characters, in order;
    no empty token is ever produced. *)
Definition split_ws (s : string) : list string := split_ws_aux s EmptyString [].

(** [s.split(sep)] for a non-empty [sep]: cut at each occurrence of [sep],
    scanning left to right, occurrences not overlapping; empty pieces are
    kept, so the result always has at least one element.  [skip] counts the
    characters of an occurrence that are still to be dropped. *)
Fixpoint split_aux (sep s cur : string) (skip : nat) : list string :=
  match s with
  | EmptyString => [cur]
  | String c s' =>
      match skip with
      | S k => split_aux sep s' cur k
      | O =>
          if startswith sep s
          then cur :: split_aux sep s' EmptyString (String.length sep - 1)%nat
          else split_aux sep s' (cur ++ String c EmptyString) O
      end
  end.

Definition split (sep s : string) : list string := split_aux sep s EmptyString 0.

(** [s.rstrip(c)] for a one-character argument: drop every trailing [c]. *)
Fixpoint rstrip (c : ascii) (s : string) : string :=
  match s with
  | EmptyString => EmptyString
  | String a s' =>
      match rstrip c s' with
      | EmptyString => if Ascii.eqb a c then EmptyString else String a EmptyString
      | r => String a r
      end
  end.

Fixpoint lstrip_ws (s : string) : string :=
  match s with
  | EmptyString => EmptyString
  | String a s' => if isspace a then lstrip_ws s' else s
  end.

Fixpoint rstrip_ws (s : string) : string :=
  match s with
  | EmptyString => EmptyString
  | String a s' =>
      match rstrip_ws s' with
      | EmptyString => if isspace a then EmptyString else String a EmptyString
      | r => String a r
      end
  end.

(** [s.strip()] *)
Definition strip (s : string) : string := rstrip_ws (lstrip_ws s).

(** The line feed character, which a Python literal writes backslash-n. *)
Definition LF : string := String (ascii_of_nat 10) EmptyString.

(** The two characters backslash and n, which a Python literal writes with
    a doubled backslash followed by n. *)
Definition backslash_n : string :=
  String (ascii_of_nat 92) (String (ascii_of_nat 110) EmptyString).

End PyStr.

(** ** Python floats

    IEEE 754 binary64, as [spec_float] with 53 bits of precision.  The
    comparisons are Python's: every comparison with NaN is false. *)

Module PyFloat.

Definition prec : Z := 53.
Definition emax : Z := 1024.

(** [float(z)] for an integer [z], rounded to nearest even. *)
Definition of_Z (z : Z) : spec_float := binary_normalize prec emax z 0 false.

(** [a / b] *)
Definition div (a b : spec_float) : spec_float := SFdiv prec emax a b.

(** [a < b] *)
Definition lt (a b : spec_float) : bool :=
  match SFcompare a b with
  | Some Lt => true
  | _ => false
  end.

(** [a >= b] *)
Definition ge (a b : spec_float) : bool :=
  match SFcompare a b with
  | Some Gt | Some Eq => true
  | _ => false
  end.

Definition is_nan (a : spec_float) : bool :=
  match a with
  | S754_nan => true
  | _ => false
  end.

(** The literal [0.0]. *)
Definition zero : spec_float := S754_zero false.

End PyFloat.

(** ** Exceptions and outcomes *)

Inductive exn : Type :=
  | FileNotFoundError     (* OSError: the program of subprocess.run is missing *)
  | CalledProcessError    (* raised by subprocess.run only under check=True *)
  | ValueError            (* float() of a string that is no number *)
  | IndexError            (* list index out of range *)
  | KeyError (k : string) (* dict[k] for an absent key *).

Inductive outcome (A : Type) : Type :=
  | Ret (a : A)
  | Raise (e : exn).
Arguments Ret {A} a.
Arguments Raise {A} e.

#[export] Instance exn_eq_dec : EqDecision exn.
Proof. solve_decision. Defined.
#[export] Instance outcome_eq_dec {A : Type} `{EqDecision A} :
  EqDecision (outcome A).
Proof. solve_decision. Defined.
#[export] Instance spec_float_eq_dec : EqDecision spec_float.
Proof. solve_decision. Defined.

(** [except Exception] catches every exception of [exn];
    [except subprocess.CalledProcessError] catches that class only. *)
Definition is_Exception (e : exn) : bool := true.
Definition is_CalledProcessError (e : exn) : bool :=
  match e with
  | CalledProcessError => true
  | _ => false
  end.

(** ** The phase tracker of [integration_test.py] *)

Module Wokwi.

(** The dict [test_phases] that [run_wokwi_test] creates. *)
Definition test_phases : gmap string bool :=
  <["configuration" := false]>
  (<["error_system" := false]>
  (<["theme_trigger" := false]>
  (<["sensor_interaction" := false]>
  (<["startup" := false]> ∅)))).

(** The dict literal [patterns] of [update_test_phases], in source order. *)
Definition patterns : list (string * list string) :=
  [ ("startup",
      ["SplashPanel loaded successfully"; "OemOilPanel loaded successfully"]);
    ("sensor_interaction",
      ["Pressure reading changed"; "Temperature reading changed";
       "Gauge animation"]);
    ("theme_trigger",
      ["Theme changed to Night"; "KeyPresentActivate"; "LockEngagedActivate";
       "Theme changed to Day"]);
    ("error_system",
      ["ErrorOccurredActivate"; "Error navigation"; "Error resolution"]);
    ("configuration",
      ["Config panel"; "Theme configuration"; "Config exit"]) ].

(** The inner loop:
    [for pattern in phase_patterns: if pattern in line: phases[phase] = True; break] *)
Fixpoint scan_patterns (line phase : string) (phase_patterns : list string)
    (phases : gmap string bool) : gmap string bool :=
  match phase_patterns with
  | [] => phases
  | pattern :: rest =>
      if PyStr.contains pattern line then <[phase := true]> phases
      else scan_patterns line phase rest phases
  end.

(** The outer loop over [patterns.items()].  The dict [phases] is the
    caller's object and is updated in place: the function returns its
    contents after the call, also when [phases[phase]] raises. *)
Fixpoint update_loop (line : string) (items : list (string * list string))
    (phases : gmap string bool) : outcome unit * gmap string bool :=
  match items with
  | [] => (Ret tt, phases)
  | (phase, phase_patterns) :: rest =>
      match phases !! phase with
      | None => (Raise (KeyError phase), phases)
      | Some completed =>
          update_loop line rest
            (if negb completed
             then scan_patterns line phase phase_patterns phases
             else phases)
      end
  end.

Definition update_test_phases (line : string) (phases : gmap string bool)
    : outcome unit * gmap string bool :=
  update_loop line patterns phases.

(** The monitoring loop of [run_wokwi_test]:
    [for line in process.stdout: ... self.update_test_phases(line, test_phases)].
    An exception leaves the loop. *)
Fixpoint monitor (lines : list string) (phases : gmap string bool)
    : outcome unit * gmap string bool :=
  match lines with
  | [] => (Ret tt, phases)
  | line :: rest =>
      match update_test_phases line phases with
      | (Ret _, phases') => monitor rest phases'
      | (Raise e, phases') => (Raise e, phases')
      end
  end.

(** The phases whose flag is true. *)
Definition completed (phases : gmap string bool) : gset string :=
  dom (filter (λ kv, kv.2 = true) phases).

(** Does some trigger of the list occur in the line? *)
Definition triggered (line : string) (phase_patterns : list string) : bool :=
  existsb (λ pattern, PyStr.contains pattern line) phase_patterns.

(** Does some trigger of some phase occur in the line? *)
Definition triggers_any (line : string) : bool :=
  existsb (λ item, triggered line item.2) patterns.

(** One iteration of the outer loop, on a phase whose flag is [c]. *)
Definition step_phase (line phase : string) (ps : list string) (c : bool)
    (phases : gmap string bool) : gmap string bool :=
  if negb c then scan_patterns line phase ps phases else phases.

End Wokwi.

(** ** The coverage test runner of [run_tests_with_coverage.py] *)

Module Coverage.

(** *** Objects, processes and the outside world *)

Definition loc : Type := positive.

(** A [pathlib.Path] with its directory, stem and suffix apart, as
    [with_suffix], [name] and [parent] need them. *)
Record path : Type := { parent : string; stem : string; suffix : string }.

Definition path_str (p : path) : string := parent p ++ "/" ++ stem p ++ suffix p.
Definition path_name (p : path) : string := stem p ++ suffix p.
Definition with_suffix (p : path) (s : string) : path :=
  {| parent := parent p; stem := stem p; suffix := s |}.

(** [subprocess.CompletedProcess] *)
Record completed_process : Type :=
  { returncode : Z; stdout : string; stderr : string }.

(** What launching a command line does: the program runs to completion, or
    it cannot be found and [subprocess.run] raises [FileNotFoundError]. *)
Inductive launch : Type :=
  | Launched (r : completed_process)
  | Missing.

(** The outside world, as the runner observes it. *)
Record world : Type := {
  sh : list string → launch;            (* subprocess.run(argv, ...) *)
  rglob : string → string → list path;  (* Path(dir).rglob(pattern) *)
  path_exists : string → bool           (* Path(p).exists() *)
}.

(** The dict that [generate_test_report] builds; [C] is what stands for the
    coverage dict (a reference in the program, its contents on disk). *)
Record report (C : Type) : Type := {
  unit_tests : string;
  integration_tests : string;
  performance_tests : string;
  memory_tests : string;
  coverage : C;
  timestamp : string
}.
Arguments unit_tests {C} _.
Arguments integration_tests {C} _.
Arguments performance_tests {C} _.
Arguments memory_tests {C} _.
Arguments coverage {C} _.
Arguments timestamp {C} _.

(** What a run leaves behind.  Of the printed text only the per-metric
    coverage rows are kept; the other [print] calls carry no data of their
    own and are left out. *)
Inductive event : Type :=
  | Exec (argv : list string)
  | MkDir (dir : string)
  | WriteCoverageReport (file : string) (names : list string)
  | WriteTestReport (file : string) (r : report (gmap string spec_float))
  | PrintCoverageRow (metric : string) (actual threshold : spec_float)
      (status : string).

#[export] Instance path_eq_dec : EqDecision path.
Proof. solve_decision. Defined.
#[export] Instance completed_process_eq_dec : EqDecision completed_process.
Proof. solve_decision. Defined.
#[export] Instance launch_eq_dec : EqDecision launch.
Proof. solve_decision. Defined.
#[export] Instance report_eq_dec {C : Type} `{EqDecision C} :
  EqDecision (report C).
Proof. solve_decision. Defined.
#[export] Instance event_eq_dec : EqDecision event.
Proof. solve_decision. Defined.

(** The program state: the dict objects with float values, by location
    (a location outside the map is one no dict was created at yet and reads
    as the empty dict), and the events so far, oldest first. *)
Record pystate : Type := {
  heap : gmap loc (gmap string spec_float);
  trace : list event
}.

#[export] Instance pystate_eq_dec : EqDecision pystate.
Proof. solve_decision. Defined.

Definition deref (σ : pystate) (l : loc) : gmap string spec_float :=
  default ∅ (heap σ !! l).

(** The state with the contents of the dict at [l] replaced. *)
Definition set_dict (σ : pystate) (l : loc) (d : gmap string spec_float)
    : pystate :=
  {| heap := <[l := d]> (heap σ); trace := trace σ |}.

(** The state with one more event. *)
Definition add_event (σ : pystate) (ev : event) : pystate :=
  {| heap := heap σ; trace := trace σ ++ [ev] |}.

(** *** The monad of state and exceptions *)

Definition M (A : Type) : Type := pystate → outcome A * pystate.

#[export] Instance M_ret : MRet M := λ A a σ, (Ret a, σ).
#[export] Instance M_bind : MBind M := λ A B f m σ,
  match m σ with
  | (Ret a, σ') => f a σ'
  | (Raise e, σ') => (Raise e, σ')
  end.

Definition raise {A : Type} (e : exn) : M A := λ σ, (Raise e, σ).

(** An expression that touches no object: its value, or its exception. *)
Definition lift {A : Type} (o : outcome A) : M A := λ σ, (o, σ).

(** [try: body  except <class>: handler]; the state changes of [body] up
    to the exception stay. *)
Definition try_except {A : Type} (body : M A) (catches : exn → bool)
    (handler : exn → M A) : M A := λ σ,
  match body σ with
  | (Ret a, σ') => (Ret a, σ')
  | (Raise e, σ') => if catches e then handler e σ' else (Raise e, σ')
  end.

Definition emit (ev : event) : M unit := λ σ,
  (Ret tt, {| heap := heap σ; trace := trace σ ++ [ev] |}).

(** [{}] *)
Definition new_dict : M loc := λ σ,
  let l := fresh (dom (heap σ)) in
  (Ret l, {| heap := <[l := ∅]> (heap σ); trace := trace σ |}).

(** [d[k] = v] *)
Definition dict_set (l : loc) (k : string) (v : spec_float) : M unit := λ σ,
  (Ret tt, {| heap := <[l := <[k := v]> (deref σ l)]> (heap σ);
              trace := trace σ |}).

(** [d.get(k, dflt)] *)
Definition dict_get (l : loc) (k : string) (dflt : spec_float) : M spec_float :=
  λ σ, (Ret (default dflt (deref σ l !! k)), σ).

(** The contents of a dict, for the places that read it whole
    ([bool(d)], [json.dump]). *)
Definition dict_items (l : loc) : M (gmap string spec_float) :=
  λ σ, (Ret (deref σ l), σ).

(** [subprocess.run(argv, capture_output=True, ...)] without [check=True]:
    a nonzero exit status is returned as data, a missing program raises. *)
Definition subprocess_run (w : world) (argv : list string)
    : M completed_process :=
  emit (Exec argv);;
  match sh w argv with
  | Launched r => mret r
  | Missing => raise FileNotFoundError
  end.

Definition pass_fail (b : bool) : string := if b then "PASS" else "FAIL".

(** The float literals of the source. *)
Definition f85 : spec_float := Eval vm_compute in PyFloat.of_Z 85.
Definition f95 : spec_float := Eval vm_compute in PyFloat.of_Z 95.
Definition f80 : spec_float := Eval vm_compute in PyFloat.of_Z 80.

(** The dict literal [thresholds] of [validate_coverage_thresholds]. *)
Definition thresholds : list (string * spec_float) :=
  [ ("line_coverage", f85);
    ("function_coverage", f95);
    ("branch_coverage", f80) ].

(** The loop [for metric, threshold in thresholds.items()] with the local
    [passed] as accumulator. *)
Fixpoint check_thresholds (items : list (string * spec_float))
    (coverage_data : loc) (passed : bool) : M bool :=
  match items with
  | [] => mret passed
  | (metric, threshold) :: rest =>
      actual ← dict_get coverage_data metric PyFloat.zero;
      emit (PrintCoverageRow metric actual threshold
              (pass_fail (PyFloat.ge actual threshold)));;
      check_thresholds rest coverage_data
        (if PyFloat.lt actual threshold then false else passed)
  end.

(** The body of [validate_coverage_thresholds] over a given table.
    [if not coverage_data: return False] is taken for [None] and for the
    empty dict. *)
Definition validate_against (table : list (string * spec_float))
    (coverage_data : option loc) : M bool :=
  match coverage_data with
  | None => mret false
  | Some l =>
      d ← dict_items l;
      if bool_decide (d = ∅) then mret false
      else check_thresholds table l true
  end.

Definition validate_coverage_thresholds (coverage_data : option loc) : M bool :=
  validate_against thresholds coverage_data.

(** What a run from [σ] to [σ'] added to the trace. *)
Definition emitted (σ σ' : pystate) : list event :=
  drop (length (trace σ)) (trace σ').

(** The value the validator reads for a metric. *)
Definition actual_of (d : gmap string spec_float) (metric : string)
    : spec_float :=
  default PyFloat.zero (d !! metric).

(** The rows the validator prints over a table, for a dict with contents [d]. *)
Definition coverage_rows (table : list (string * spec_float))
    (d : gmap string spec_float) : list event :=
  map (λ mt, PrintCoverageRow mt.1 (actual_of d mt.1) mt.2
               (pass_fail (PyFloat.ge (actual_of d mt.1) mt.2)))
      table.

(** No measured value is NaN (a percentage in [0,100] is not). *)
Definition no_nan (d : gmap string spec_float) : Prop :=
  map_Forall (λ _ v, PyFloat.is_nan v = false) d.

Section Runner.

(** [float(s)] for a string: [None] stands for [ValueError]. *)
Variable py_float : string → option spec_float.
Variable w : world.
(** [self.project_root], as text. *)
Variable project_root : string.

Definition build_dir : string := project_root ++ "/.pio/build/test-coverage".
Definition coverage_dir : string := project_root ++ "/coverage".

Definition coverage_flags : list string :=
  [ "-fprofile-arcs"; "-ftest-coverage"; "--coverage"; "-fno-inline";
    "-fno-inline-small-functions"; "-fno-default-inline" ].

Definition setup_coverage_environment : M (list string) :=
  emit (MkDir coverage_dir);;
  mret coverage_flags.

Definition run_unit_tests : M bool :=
  try_except
    (result ← subprocess_run w
                ["pio.exe"; "test"; "-e"; "test-coverage"; "--verbose"];
     mret (returncode result =? 0)%Z)
    is_CalledProcessError
    (λ _, mret false).

Definition run_integration_tests : M bool :=
  try_except
    (result ← subprocess_run w
                ["pio.exe"; "test"; "-e"; "test-integration"; "--verbose"];
     mret (returncode result =? 0)%Z)
    is_CalledProcessError
    (λ _, mret false).

Definition run_performance_tests : M bool :=
  try_except
    (result ← subprocess_run w
                ["pio.exe"; "test"; "-e"; "test-performance"; "--verbose"];
     mret (returncode result =? 0)%Z)
    is_CalledProcessError
    (λ _, mret false).

Definition run_memory_tests : M bool :=
  try_except
    (result ← subprocess_run w
                ["pio.exe"; "test"; "-e"; "test-memory"; "--verbose"];
     mret (returncode result =? 0)%Z)
    is_CalledProcessError
    (λ _, mret false).

(** The loop that runs gcov over every [.gcno] file with a [.cpp] beside it. *)
Fixpoint run_gcov (gcov_files : list path) : M unit :=
  match gcov_files with
  | [] => mret tt
  | gcov_file :: rest =>
      (if path_exists w (path_str (with_suffix gcov_file ".cpp"))
       then subprocess_run w
              ["gcov"; path_str gcov_file; "-o"; parent gcov_file];;
            mret tt
       else mret tt);;
      run_gcov rest
  end.

Definition generate_coverage_report : M bool :=
  try_except
    (let gcov_files := rglob w build_dir "*.gcno" in
     match gcov_files with
     | [] => mret false
     | _ =>
         run_gcov gcov_files;;
         emit (WriteCoverageReport (coverage_dir ++ "/coverage_report.txt")
                 (map path_name gcov_files));;
         mret true
     end)
    is_Exception
    (λ _, mret false).

(** [float(parts[1].rstrip('%'))] with [parts = line.split()] *)
Definition percent_field (line : string) : outcome spec_float :=
  match PyStr.split_ws line !! 1%nat with
  | None => Raise IndexError
  | Some tok =>
      match py_float (PyStr.rstrip "%" tok) with
      | Some v => Ret v
      | None => Raise ValueError
      end
  end.

(** The loop [for line in lines] with its [if]/[elif] chain. *)
Fixpoint parse_lines (lines : list string) (coverage_data : loc) : M unit :=
  match lines with
  | [] => mret tt
  | line :: rest =>
      (if PyStr.contains "lines......:" line then
         v ← lift (percent_field line);
         dict_set coverage_data "line_coverage" v
       else if PyStr.contains "functions..:" line then
         v ← lift (percent_field line);
         dict_set coverage_data "function_coverage" v
       else if PyStr.contains "branches...:" line then
         v ← lift (percent_field line);
         dict_set coverage_data "branch_coverage" v
       else mret tt);;
      parse_lines rest coverage_data
  end.

(** The statements of [parse_coverage_results] under [try], from the text
    that lcov printed.  The separator of [split] is the source's: the two
    characters backslash and n. *)
Definition parse_summary (summary : string) : M loc :=
  let lines := PyStr.split PyStr.backslash_n summary in
  coverage_data ← new_dict;
  parse_lines lines coverage_data;;
  mret coverage_data.

Definition parse_coverage_results : M (option loc) :=
  let coverage_file := (coverage_dir ++ "/coverage_filtered.info")%string in
  if negb (path_exists w coverage_file) then mret None
  else
    try_except
      (result ← subprocess_run w ["lcov"; "--summary"; coverage_file];
       coverage_data ← parse_summary (stdout result);
       mret (Some coverage_data))
      is_Exception
      (λ _, mret None).

(** The key the [if]/[elif] chain files a line under, if any. *)
Definition metric_label (line : string) : option string :=
  if PyStr.contains "lines......:" line then Some "line_coverage"
  else if PyStr.contains "functions..:" line then Some "function_coverage"
  else if PyStr.contains "branches...:" line then Some "branch_coverage"
  else None.

(** The loop of [parse_lines] read on the contents of the dict: the
    contents when the loop ends, and how it ends. *)
Fixpoint scan_lines (lines : list string) (d : gmap string spec_float)
    : outcome unit * gmap string spec_float :=
  match lines with
  | [] => (Ret tt, d)
  | line :: rest =>
      match metric_label line with
      | None => scan_lines rest d
      | Some k =>
          match percent_field line with
          | Ret v => scan_lines rest (<[k := v]> d)
          | Raise e => (Raise e, d)
          end
      end
  end.

(** A line with a label on it whose second token is missing or is no
    number. *)
Definition unreadable (line : string) : bool :=
  match metric_label line, percent_field line with
  | Some _, Raise _ => true
  | _, _ => false
  end.

(** The metrics [parse_coverage_results] returns: [None] for Python's
    [None]. *)
Definition metrics_of_summary (summary : string)
    : option (gmap string spec_float) :=
  match scan_lines (PyStr.split PyStr.backslash_n summary) ∅ with
  | (Ret _, d) => Some d
  | (Raise _, _) => None
  end.

Definition lcov_command : list string :=
  ["lcov"; "--summary"; (coverage_dir ++ "/coverage_filtered.info")%string].

Definition lcov_metrics : option (gmap string spec_float) :=
  if path_exists w (coverage_dir ++ "/coverage_filtered.info")%string
  then match sh w lcov_command with
       | Launched r => metrics_of_summary (stdout r)
       | Missing => None
       end
  else None.

(** [coverage_data or {}] *)
Definition or_empty_dict (coverage_data : option loc) : M loc :=
  match coverage_data with
  | None => new_dict
  | Some l =>
      d ← dict_items l;
      if bool_decide (d = ∅) then new_dict else mret l
  end.

Definition generate_test_report (unit_result integration_result : bool)
    (coverage_data : option loc) (performance_result memory_result : bool)
    : M (report loc) :=
  cov ← or_empty_dict coverage_data;
  date ← subprocess_run w ["date"; "-Iseconds"];
  let rep := {| unit_tests := pass_fail unit_result;
                integration_tests := pass_fail integration_result;
                performance_tests := pass_fail performance_result;
                memory_tests := pass_fail memory_result;
                coverage := cov;
                timestamp := PyStr.strip (stdout date) |} in
  d ← dict_items cov;
  emit (WriteTestReport (coverage_dir ++ "/test_report.json")
          {| unit_tests := unit_tests rep;
             integration_tests := integration_tests rep;
             performance_tests := performance_tests rep;
             memory_tests := memory_tests rep;
             coverage := d;
             timestamp := timestamp rep |});;
  mret rep.

Definition run_all_tests (skip_performance skip_memory : bool) : M Z :=
  setup_coverage_environment;;
  unit_result ← run_unit_tests;
  integration_result ← run_integration_tests;
  performance_result ←
    (if negb skip_performance then run_performance_tests else mret true);
  memory_result ←
    (if negb skip_memory then run_memory_tests else mret true);
  coverage_generated ← generate_coverage_report;
  coverage_data ←
    (if coverage_generated then parse_coverage_results else mret None);
  coverage_passed ← validate_coverage_thresholds coverage_data;
  generate_test_report unit_result integration_result coverage_data
    performance_result memory_result;;
  let overall_result :=
    unit_result && integration_result && performance_result &&
    memory_result && coverage_generated && coverage_passed in
  mret (if overall_result then 0%Z else 1%Z).

(** *** Readings of the world, for the statements below *)

Definition pio_command (env : string) : list string :=
  ["pio.exe"; "test"; "-e"; env; "--verbose"].

Definition gcov_command (gcov_file : path) : list string :=
  ["gcov"; path_str gcov_file; "-o"; parent gcov_file].

Definition date_command : list string := ["date"; "-Iseconds"].

(** The program of the command line can be launched. *)
Definition launches (argv : list string) : bool :=
  match sh w argv with
  | Launched _ => true
  | Missing => false
  end.

(** The test command of the environment runs and exits with status 0. *)
Definition stage_passed (env : string) : bool :=
  match sh w (pio_command env) with
  | Launched r => (returncode r =? 0)%Z
  | Missing => false
  end.

(** gcov can be launched on every file it is called for. *)
Definition gcov_ok (gcov_files : list path) : bool :=
  forallb (λ f, if path_exists w (path_str (with_suffix f ".cpp"))
                then launches (gcov_command f) else true)
          gcov_files.

(** Instrumentation files are found and gcov runs on them. *)
Definition coverage_generated : bool :=
  match rglob w build_dir "*.gcno" with
  | [] => false
  | gcov_files => gcov_ok gcov_files
  end.

End Runner.

(** The verdict of the validator on the contents of its argument. *)
Definition thresholds_met (cd : option (gmap string spec_float)) : bool :=
  match cd with
  | None => false
  | Some d =>
      if bool_decide (d = ∅) then false
      else forallb (λ mt, negb (PyFloat.lt (actual_of d mt.1) mt.2)) thresholds
  end.

(** The world in which the command line [argv] does [o] and all else is
    as in [w]. *)
Definition override (w : world) (argv : list string) (o : launch) : world :=
  {| sh := λ a, if decide (a = argv) then o else sh w a;
     rglob := rglob w;
     path_exists := path_exists w |}.

(** [m] adds only events in [Ev] to the trace, and a value it returns is
    in [R]. *)
Definition emits {A : Type} (m : M A) (Ev : event → Prop) (R : A → Prop)
    : Prop :=
  ∀ σ, ∃ evs,
    trace (m σ).2 = trace σ ++ evs ∧ Forall Ev evs
    ∧ ∀ a, (m σ).1 = Ret a → R a.

End Coverage.

(** ** Concrete inputs

    A float parser and worlds to run the model on. *)

Module Samples.

Import Coverage.

Definition digit (c : ascii) : option Z :=
  let n := nat_of_ascii c in
  if ((48 <=? n)%nat && (n <=? 57)%nat) then Some (Z.of_nat (n - 48)) else None.

(** Reads [digits], [digits.digits], [digits.] or [.digits]: the digits as
    one integer, and the number of digits after the point. *)
Fixpoint scan_decimal (s : string) (mant : Z) (scale : option nat)
    (ndigits : nat) : option (Z * nat) :=
  match s with
  | EmptyString =>
      if (ndigits =? 0)%nat then None else Some (mant, default 0%nat scale)
  | String c s' =>
      match digit c with
      | Some d => scan_decimal s' (10 * mant + d)%Z (S <$> scale) (S ndigits)
      | None =>
          if Ascii.eqb c "."
          then match scale with
               | None => scan_decimal s' mant (Some 0%nat) ndigits
               | Some _ => None
               end
          else None
      end
  end.

(** [float(s)] on unsigned decimal literals without exponent, and
    [ValueError] on every other string: a value for the parameter
    [py_float] that agrees with Python on the literals of up to 15
    significant digits and on the strings without any digit used below. *)
Definition decimal_float (s : string) : option spec_float :=
  match scan_decimal s 0%Z None 0%nat with
  | Some (m, k) =>
      Some (PyFloat.div (PyFloat.of_Z m) (PyFloat.of_Z (10 ^ Z.of_nat k)))
  | None => None
  end.

(** The float [92.3]. *)
Definition f92_3 : spec_float := S754_finite false 6495035087598387 (-46).

Definition init : pystate := {| heap := ∅; trace := [] |}.

(** A state with one dict, at location 1. *)
Definition with_dict (d : gmap string spec_float) : pystate :=
  {| heap := {[ 1%positive := d ]}; trace := [] |}.

(** Measured line 90, function 93, branch 85. *)
Definition measured : gmap string spec_float :=
  <["line_coverage" := PyFloat.of_Z 90]>
  (<["function_coverage" := PyFloat.of_Z 93]>
  (<["branch_coverage" := PyFloat.of_Z 85]> ∅)).

(** The same without the branch metric, and with it measured at 0.0. *)
Definition measured_no_branch : gmap string spec_float :=
  <["line_coverage" := PyFloat.of_Z 90]>
  (<["function_coverage" := PyFloat.of_Z 93]> ∅).

Definition measured_zero_branch : gmap string spec_float :=
  <["branch_coverage" := PyFloat.zero]> measured_no_branch.

Definition exit_with (rc : Z) (out : string) : launch :=
  Launched {| returncode := rc; stdout := out; stderr := "" |}.

(** A world for a project at ".": pio exits with [pio_rc env] for the test
    environment [env] and is missing where that is [None]; gcov and date
    run; lcov prints [summary]; one [.gcno] file is found when [gcno] is
    set; every path asked for exists. *)
Definition sample_world (pio_rc : string → option Z) (gcno : bool)
    (summary : string) : world :=
  {| sh := λ argv,
       match argv with
       | [prog; _; _; env; _] =>
           if String.eqb prog "pio.exe"
           then match pio_rc env with
                | Some rc => exit_with rc ""
                | None => Missing
                end
           else Missing
       | prog :: _ =>
           if String.eqb prog "gcov" then exit_with 0 ""
           else if String.eqb prog "lcov" then exit_with 0 summary
           else if String.eqb prog "date"
                then exit_with 0 ("2025-06-01T12:00:00+00:00" ++ PyStr.LF)
                else Missing
       | [] => Missing
       end;
     rglob := λ _ _,
       if gcno
       then [ {| parent := "./.pio/build/test-coverage/src";
                 stem := "main"; suffix := ".gcno" |} ]
       else [];
     path_exists := λ _, true |}.

Definition all_pass (env : string) : option Z := Some 0%Z.
Definition no_pio (env : string) : option Z := None.
Definition unit_fails (env : string) : option Z :=
  if String.eqb env "test-coverage" then Some 1%Z else Some 0%Z.

(** Summaries: one line; two lines; a first line with no number on it;
    a good segment and a bad one, cut by the two characters backslash, n. *)
Definition one_line : string :=
  "lines......: 92.3% (100 of 108)" ++ PyStr.LF.

Definition two_lines : string :=
  "lines......: 92.3% (100 of 108)" ++ PyStr.LF ++
  "functions..: 95.0% (19 of 20)" ++ PyStr.LF.

Definition malformed_first : string :=
  "lines......: n/a" ++ PyStr.LF ++
  "functions..: 95.0% (19 of 20)" ++ PyStr.LF.

Definition malformed_second_segment : string :=
  "lines......: 92.3% (100 of 108)" ++ PyStr.backslash_n ++
  "functions..: n/a".

Definition good_summary : string :=
  "lines......: 92.3% (100 of 108)" ++ PyStr.backslash_n ++
  "functions..: 95.0% (19 of 20)" ++ PyStr.backslash_n ++
  "branches...: 92.3% (12 of 13)".

End Samples.

(** ** The rest of [integration_test.py] *)

Module Integration.

Import Wokwi.

(** What [subprocess.Popen] does with the simulator's command line: the
    process starts, prints its lines and exits with a status; or it cannot
    be started and [Popen] raises. *)
Inductive popen : Type :=
  | Started (lines : list string) (returncode : Z)
  | NotStarted.

(** The outside world of the integration script. *)
Record world : Type := {
  expanduser : string → string;          (* os.path.expanduser *)
  which : string → Coverage.launch;      (* subprocess.run(["which", path]) *)
  isfile : string → bool;                (* os.path.isfile *)
  firmware_exists : bool;                (* firmware_path.exists(), at the start *)
  pio_run : Coverage.launch;             (* subprocess.run(["pio", "run", ...]) *)
  firmware_built : bool;                 (* firmware_path.exists(), after the build *)
  wokwi : list string → popen            (* subprocess.Popen(cmd, ...) *)
}.

(** The two numbers [print_test_summary] prints as overall progress:
    [sum(phases.values())] and [len(phases)]. *)
Definition completed_count (phases : gmap string bool) : nat :=
  map_fold (λ _ (b : bool) n, ((if b then 1 else 0) + n)%nat) 0%nat phases.

Definition total_count (phases : gmap string bool) : nat := size phases.

Definition print_test_summary (phases : gmap string bool) : nat * nat :=
  (completed_count phases, total_count phases).

(** The dicts that have every phase of the table [patterns]. *)
Definition tracks_all (phases : gmap string bool) : Prop :=
  ∀ phase, phase ∈ patterns.*1 → is_Some (phases !! phase).

Section Script.

Variable w : world.

Definition common_paths : list string :=
  [ "wokwi-cli";
    expanduser w "~/bin/wokwi-cli";
    expanduser w "~/.wokwi/bin/wokwi-cli" ].

(** The loop of [find_wokwi_cli] over the candidate paths. *)
Fixpoint find_in (paths : list string) : outcome string :=
  match paths with
  | [] => Raise FileNotFoundError
  | path :: rest =>
      match which w path with
      | Coverage.Missing => Raise FileNotFoundError
      | Coverage.Launched r =>
          if (Coverage.returncode r =? 0)%Z then Ret path
          else if isfile w path then Ret path
          else find_in rest
      end
  end.

Definition find_wokwi_cli : outcome string := find_in common_paths.

(** [build_firmware]; a missing pio leaves it as an exception. *)
Definition build_firmware : outcome bool :=
  match pio_run w with
  | Coverage.Missing => Raise FileNotFoundError
  | Coverage.Launched r =>
      if negb (Coverage.returncode r =? 0)%Z then Ret false
      else if negb (firmware_built w) then Ret false
      else Ret true
  end.

(** [run_wokwi_test] with the default timeout, for the simulator found at
    [wokwi_cli]: the verdict, and the summary when one is printed.  Every
    exception under its [try] gives False. *)
Definition run_wokwi_test (wokwi_cli : string) : bool * option (nat * nat) :=
  match wokwi w [wokwi_cli; "--timeout"; "300000"] with
  | NotStarted => (false, None)
  | Started lines returncode =>
      match monitor lines test_phases with
      | (Ret _, phases) =>
          ((returncode =? 0)%Z, Some (print_test_summary phases))
      | (Raise _, _) => (false, None)
      end
  end.

Definition run_full_test (wokwi_cli : string) : outcome bool :=
  if negb (firmware_exists w) then
    match build_firmware with
    | Raise e => Raise e
    | Ret false => Ret false
    | Ret true => Ret (run_wokwi_test wokwi_cli).1
    end
  else Ret (run_wokwi_test wokwi_cli).1.

(** [main]: the exit status of the script.  The constructor of the test
    object runs [find_wokwi_cli]; every exception ends in [sys.exit(1)]. *)
Definition main : Z :=
  match find_wokwi_cli with
  | Raise _ => 1%Z
  | Ret wokwi_cli =>
      match run_full_test wokwi_cli with
      | Raise _ => 1%Z
      | Ret success => if success then 0%Z else 1%Z
      end
  end.

(** The test [find_wokwi_cli] applies to a candidate. *)
Definition accepted (path : string) : bool :=
  match which w path with
  | Coverage.Launched r => (Coverage.returncode r =? 0)%Z || isfile w path
  | Coverage.Missing => false
  end.

End Script.

End Integration.

(** ** The command line of [run_tests_with_coverage.py] *)

Module CoverageMain.

Import Coverage.

(** The namespace that [parser.parse_args()] returns. *)
Record args : Type := {
  project_root : string;
  unit_only : bool;
  integration_only : bool;
  no_coverage : bool;
  performance_only : bool;
  memory_only : bool;
  skip_performance : bool;
  skip_memory : bool
}.

Definition exit_status (success : bool) : Z := if success then 0%Z else 1%Z.

(** The events of the coverage steps of a full run: gcov and lcov calls,
    the text report, the printed rows. *)
Definition coverage_step_event (root : string) (ev : event) : Prop :=
  match ev with
  | Exec argv => (∃ f, argv = gcov_command f) ∨ argv = lcov_command root
  | WriteCoverageReport _ _ => True
  | PrintCoverageRow _ _ _ _ => True
  | MkDir _ => False
  | WriteTestReport _ _ => False
  end.

(** [main], from the parsed arguments on. *)
Definition main (py_float : string → option spec_float) (w : world)
    (a : args) : M Z :=
  if unit_only a then
    success ← run_unit_tests w; mret (exit_status success)
  else if integration_only a then
    success ← run_integration_tests w; mret (exit_status success)
  else if performance_only a then
    success ← run_performance_tests w; mret (exit_status success)
  else if memory_only a then
    success ← run_memory_tests w; mret (exit_status success)
  else
    run_all_tests py_float w (project_root a)
      (skip_performance a) (skip_memory a).

End CoverageMain.

(** ** [quick_test.py] *)

Module QuickTest.

(** What [subprocess.run(cmd, shell=True, timeout=...)] does with a shell
    command: it ends with a status, it runs out of time, or the call
    raises some other exception. *)
Inductive shell_result : Type :=
  | Exited (returncode : Z)
  | TimeoutExpired
  | OtherException.

(** The shell, by command and timeout in seconds. *)
Definition shell : Type := string → option Z → shell_result.

(** [run_command]: its result, and nothing else escapes it. *)
Definition run_command (sh : shell) (cmd : string) (timeout : option Z)
    : bool :=
  match sh cmd timeout with
  | Exited returncode => (returncode =? 0)%Z
  | TimeoutExpired => false
  | OtherException => false
  end.

Definition pio_check : string := "pio --version".
Definition wokwi_check : string := "wokwi-cli --version".
Definition build_cmd : string :=
  "pio test -e test-wokwi --without-uploading --without-testing".
Definition simulate_cmd : string :=
  "cd test/wokwi && wokwi-cli run --timeout 420000 diagram.json ../../.pio/build/test-wokwi/firmware.bin".

(** [main]: its result, and the commands it ran, in order. *)
Definition main (sh : shell) : bool * list string :=
  if negb (run_command sh pio_check None) then (false, [pio_check])
  else if negb (run_command sh wokwi_check None)
  then (false, [pio_check; wokwi_check])
  else if negb (run_command sh build_cmd (Some 120%Z))
  then (false, [pio_check; wokwi_check; build_cmd])
  else (run_command sh simulate_cmd (Some 450%Z),
        [pio_check; wokwi_check; build_cmd; simulate_cmd]).

(** The exit status of the script: [sys.exit(0 if success else 1)]. *)
Definition exit_status (sh : shell) : Z :=
  if (main sh).1 then 0%Z else 1%Z.

(** The four commands with their timeouts. *)
Definition steps : list (string * option Z) :=
  [ (pio_check, None); (wokwi_check, None);
    (build_cmd, Some 120%Z); (simulate_cmd, Some 450%Z) ].

End QuickTest.

(** ** More concrete inputs *)

Module MoreSamples.

(** [expanduser] for a user whose home is /home/dev. *)
Definition expand_home (p : string) : string :=
  match p with
  | String c rest => if Ascii.eqb c "~" then "/home/dev" ++ rest else p
  | EmptyString => p
  end.

(** A machine where which finds nothing, the simulator is the file
    ~/bin/wokwi-cli, the firmware is there when [fw] is set, pio builds it
    otherwise, and the simulator prints [lines] and exits with [rc]. *)
Definition integration_world (fw : bool) (lines : list string) (rc : Z)
    : Integration.world :=
  {| Integration.expanduser := expand_home;
     Integration.which := λ _, Samples.exit_with 1 "";
     Integration.isfile := λ p, String.eqb p "/home/dev/bin/wokwi-cli";
     Integration.firmware_exists := fw;
     Integration.pio_run := Samples.exit_with 0 "";
     Integration.firmware_built := true;
     Integration.wokwi := λ argv,
       match argv with
       | cli :: _ =>
           if String.eqb cli "/home/dev/bin/wokwi-cli"
           then Integration.Started lines rc
           else Integration.NotStarted
       | [] => Integration.NotStarted
       end |}.

Definition session : list string :=
  [ "SplashPanel loaded successfully";
    "Pressure reading changed to 42";
    "idle";
    "Theme changed to Night" ].

(** Two summaries for the same metric, and the segments they are cut
    into. *)
Definition twice : string :=
  "lines......: 92.3% (100 of 108)" ++ PyStr.backslash_n ++
  "functions..: 95.0% (19 of 20)" ++ PyStr.backslash_n ++
  "lines......: 95.0% (19 of 20)".

(** The arguments of a unit-only call that also sets other flags. *)
Definition unit_only_args : CoverageMain.args :=
  {| CoverageMain.project_root := ".";
     CoverageMain.unit_only := true;
     CoverageMain.integration_only := true;
     CoverageMain.no_coverage := true;
     CoverageMain.performance_only := false;
     CoverageMain.memory_only := false;
     CoverageMain.skip_performance := true;
     CoverageMain.skip_memory := false |}.

(** A shell in which the build times out. *)
Definition build_times_out : QuickTest.shell := λ cmd _,
  if String.eqb cmd QuickTest.build_cmd then QuickTest.TimeoutExpired
  else QuickTest.Exited 0.

(** Measured line 95, function 95, branch 85, and one more key. *)
Definition better : gmap string spec_float :=
  <["line_coverage" := PyFloat.of_Z 95]>
  (<["function_coverage" := PyFloat.of_Z 95]>
  (<["branch_coverage" := PyFloat.of_Z 85]>
  (<["region_coverage" := PyFloat.of_Z 10]> ∅))).

Definition passing : gmap string spec_float :=
  <["line_coverage" := PyFloat.of_Z 90]>
  (<["function_coverage" := PyFloat.of_Z 95]>
  (<["branch_coverage" := PyFloat.of_Z 85]> ∅)).

End MoreSamples.
Example contains_mid : PyStr.contains "bc" "abcd" = true.
Proof. reflexivity. Qed.
Example contains_none : PyStr.contains "bd" "abcd" = false.
Proof. reflexivity. Qed.
Example split_ws_ex :
  PyStr.split_ws "  lines......: 92.3% (100 of 108)" =
  ["lines......:"; "92.3%"; "(100"; "of"; "108)"].
Proof. reflexivity. Qed.
Example split_ex : PyStr.split "--" "a--b----c-" = ["a"; "b"; ""; "c-"].
Proof. reflexivity. Qed.
Example split_empty : PyStr.split PyStr.backslash_n "" = [""].
Proof. reflexivity. Qed.
Example rstrip_ex : PyStr.rstrip "%" "9%2.3%%" = "9%2.3".
Proof. reflexivity. Qed.
Example rstrip_all : PyStr.rstrip "%" "%%" = "".
Proof. reflexivity. Qed.

(** * Properties *)

(** ** The phase tracker *)

Section PhaseTracker.

Import Wokwi.

Implicit Types (line phase : string) (phases : gmap string bool).

Lemma elem_of_completed phases p :
  p ∈ completed phases ↔ phases !! p = Some true.
Proof.
  unfold completed. rewrite elem_of_dom. split.
  - intros [b Hb]. apply map_lookup_filter_Some in Hb as [Hb Ht].
    simpl in Ht. by subst.
  - intros Hp. exists true. by apply map_lookup_filter_Some.
Qed.

Lemma scan_patterns_spec line phase ps phases :
  scan_patterns line phase ps phases =
  if triggered line ps then <[phase := true]> phases else phases.
Proof.
  induction ps as [|pat ps IH]; simpl; [done|].
  destruct (PyStr.contains pat line); simpl; [done|apply IH].
Qed.

Lemma step_phase_true line phase ps c phases q :
  phases !! q = Some true → step_phase line phase ps c phases !! q = Some true.
Proof.
  intros Hq. unfold step_phase. destruct c; simpl; [done|].
  rewrite scan_patterns_spec. destruct (triggered line ps); [|done].
  destruct (decide (phase = q)) as [->|Hne].
  - by rewrite lookup_insert_eq.
  - by rewrite lookup_insert_ne.
Qed.

Lemma step_phase_None line phase ps c phases q :
  phases !! phase = Some c →
  step_phase line phase ps c phases !! q = None ↔ phases !! q = None.
Proof.
  intros Hp. unfold step_phase. destruct c; simpl; [done|].
  rewrite scan_patterns_spec. destruct (triggered line ps); [|done].
  destruct (decide (phase = q)) as [->|Hne].
  - rewrite lookup_insert_eq, Hp. split; intros; discriminate.
  - by rewrite lookup_insert_ne.
Qed.

Lemma update_loop_cons line phase ps items phases c :
  phases !! phase = Some c →
  update_loop line ((phase, ps) :: items) phases =
  update_loop line items (step_phase line phase ps c phases).
Proof. intros Hp. simpl. by rewrite Hp. Qed.

Lemma update_loop_true line items phases q :
  phases !! q = Some true → (update_loop line items phases).2 !! q = Some true.
Proof.
  revert phases. induction items as [|[phase ps] items IH]; intros phases Hq;
    simpl; [done|].
  destruct (phases !! phase) as [c|] eqn:Hp; simpl; [|done].
  apply IH. by apply (step_phase_true line phase ps c).
Qed.

Lemma update_loop_None line items phases q :
  (update_loop line items phases).2 !! q = None ↔ phases !! q = None.
Proof.
  revert phases. induction items as [|[phase ps] items IH]; intros phases;
    simpl; [done|].
  destruct (phases !! phase) as [c|] eqn:Hp; simpl; [|done].
  rewrite IH. by apply step_phase_None.
Qed.

Lemma update_loop_completed line items phases :
  completed phases ⊆ completed (update_loop line items phases).2.
Proof.
  intros p. rewrite !elem_of_completed. apply update_loop_true.
Qed.

Lemma monitor_true lines phases q :
  phases !! q = Some true → (monitor lines phases).2 !! q = Some true.
Proof.
  revert phases. induction lines as [|line lines IH]; intros phases Hq;
    simpl; [done|].
  pose proof (update_loop_true line patterns phases q Hq) as Hstep.
  unfold update_test_phases.
  destruct (update_loop line patterns phases) as [[[]|e] phases']; simpl in *;
    [by apply IH|done].
Qed.

Lemma monitor_app_completed l1 l2 phases :
  completed (monitor l1 phases).2 ⊆ completed (monitor (l1 ++ l2) phases).2.
Proof.
  revert phases. induction l1 as [|line l1 IH]; intros phases; simpl.
  - intros p. rewrite !elem_of_completed. apply monitor_true.
  - destruct (update_test_phases line phases) as [[[]|e] phases']; simpl;
      [apply IH|done].
Qed.

Lemma take_S_app {A} (l : list A) i : ∃ l2, take (S i) l = take i l ++ l2.
Proof.
  revert l. induction i as [|i IH]; intros [|x l]; simpl.
  - by exists [].
  - by exists [x].
  - by exists [].
  - destruct (IH l) as [l2 Hl2]. exists l2. simpl in Hl2. by rewrite Hl2.
Qed.

(** Running the loop again, on any state that has the same keys and at
    least the flags of its own result, changes nothing and ends the same
    way. *)
Lemma update_loop_settled line items phases u :
  (∀ q, u !! q = None ↔ (update_loop line items phases).2 !! q = None) →
  (∀ q, (update_loop line items phases).2 !! q = Some true → u !! q = Some true) →
  update_loop line items u = ((update_loop line items phases).1, u).
Proof.
  revert phases. induction items as [|[phase ps] items IH]; intros phases;
    simpl; [done|].
  destruct (phases !! phase) as [c|] eqn:Hp; simpl.
  - intros Hdom Htrue.
    assert (∃ c', u !! phase = Some c') as [c' Hu].
    { destruct (u !! phase) as [c'|] eqn:Hu; [by eexists|].
      apply Hdom, update_loop_None, (step_phase_None _ _ _ _ _ _ Hp) in Hu.
      congruence. }
    rewrite Hu. fold (step_phase line phase ps c phases) in *.
    assert ((if negb c' then scan_patterns line phase ps u else u) = u)
      as ->; [|by apply IH].
    destruct c'; simpl; [done|].
    rewrite scan_patterns_spec.
    destruct (triggered line ps) eqn:Htrig; [|done].
    exfalso.
    assert (step_phase line phase ps c phases !! phase = Some true) as Hset.
    { destruct c.
      - by apply step_phase_true.
      - unfold step_phase. simpl. rewrite scan_patterns_spec, Htrig.
        by rewrite lookup_insert_eq. }
    apply (update_loop_true line items) in Hset. apply Htrue in Hset.
    congruence.
  - intros Hdom _. assert (u !! phase = None) as ->; [by apply Hdom|done].
Qed.

Lemma update_loop_untriggered line items phases :
  (∀ phase ps, (phase, ps) ∈ items → triggered line ps = false) →
  (update_loop line items phases).2 = phases.
Proof.
  intros Hno. induction items as [|[phase ps] items IH]; simpl; [done|].
  destruct (phases !! phase) as [c|] eqn:Hp; simpl; [|done].
  assert (triggered line ps = false) as Htrig by (apply (Hno phase); left).
  destruct c; simpl.
  - apply IH. intros p' ps' Hin. apply (Hno p'). by right.
  - rewrite scan_patterns_spec, Htrig. apply IH.
    intros p' ps' Hin. apply (Hno p'). by right.
Qed.

(** C4: phase completion is monotonic.  Whatever lines the monitoring loop
    is fed, from whatever phase dict, the set of completed phases after
    [i] lines is included in the set after [i+1] lines; and a single call of
    [update_test_phases] never resets a flag that is true. *)
Theorem phase_completion_monotonic (lines : list string) (i : nat) phases :
  completed (monitor (take i lines) phases).2
    ⊆ completed (monitor (take (S i) lines) phases).2
  ∧ ∀ line p,
      phases !! p = Some true →
      (update_test_phases line phases).2 !! p = Some true.
Proof.
  split.
  - destruct (take_S_app lines i) as [l2 ->]. apply monitor_app_completed.
  - intros line p. apply update_loop_true.
Qed.

(** C7: the line "SplashPanel loaded successfully" completes the phase
    "startup" (in the initial dict, and in any dict that has the key);
    feeding any line a second time changes nothing; a line in which no
    trigger of any phase occurs changes nothing. *)
Theorem startup_line_idempotent_unrelated_noop :
  update_test_phases "SplashPanel loaded successfully" test_phases
    = (Ret tt, <["startup" := true]> test_phases)
  ∧ (∀ phases, is_Some (phases !! "startup") →
       (update_test_phases "SplashPanel loaded successfully" phases).2
          !! "startup" = Some true)
  ∧ (∀ line phases,
       update_test_phases line (update_test_phases line phases).2
         = update_test_phases line phases)
  ∧ (∀ line phases,
       triggers_any line = false →
       (update_test_phases line phases).2 = phases).
Proof.
  split; [|split; [|split]].
  - compute_done.
  - intros phases [c Hc]. unfold update_test_phases, patterns.
    rewrite (update_loop_cons _ _ _ _ _ c Hc). apply update_loop_true.
    destruct c; [done|]. unfold step_phase. simpl.
    by rewrite lookup_insert_eq.
  - intros line phases. unfold update_test_phases.
    rewrite (update_loop_settled line patterns phases); [|done..].
    by destruct (update_loop line patterns phases).
  - intros line phases Hno. apply update_loop_untriggered.
    intros phase ps Hin. unfold triggers_any in Hno.
    destruct (triggered line ps) eqn:Htrig; [|done].
    assert (existsb (λ item, triggered line item.2) patterns = true) as Hex.
    { apply existsb_exists. exists (phase, ps).
      split; [by apply list_elem_of_In|done]. }
    congruence.
Qed.

End PhaseTracker.

(** ** The monad *)

Section Monad.

Import Coverage.

Lemma run_bind {A B} (m : M A) (f : A → M B) σ :
  (m ≫= f) σ =
  match m σ with
  | (Ret a, σ') => f a σ'
  | (Raise e, σ') => (Raise e, σ')
  end.
Proof. reflexivity. Qed.

Lemma run_ret {A} (a : A) σ : (mret a : M A) σ = (Ret a, σ).
Proof. reflexivity. Qed.

Lemma emitted_app σ σ' evs :
  trace σ' = trace σ ++ evs → emitted σ σ' = evs.
Proof. intros Htr. unfold emitted. rewrite Htr. apply drop_app_length. Qed.

Lemma emitted_refl σ : emitted σ σ = [].
Proof. apply emitted_app. by rewrite app_nil_r. Qed.

End Monad.

(** ** The threshold validator *)

Section Validator.

Import Coverage.

Implicit Types (σ : pystate) (l : loc) (d : gmap string spec_float)
  (table : list (string * spec_float)).

Lemma compare_not_nan a b :
  PyFloat.is_nan a = false → PyFloat.is_nan b = false →
  ∃ c, SFcompare a b = Some c.
Proof. destruct a, b; simpl; intros; try discriminate; eauto. Qed.

(** Away from NaN, [a < b] is the negation of [a >= b]. *)
Lemma lt_negb_ge a b :
  PyFloat.is_nan a = false → PyFloat.is_nan b = false →
  PyFloat.lt a b = negb (PyFloat.ge a b).
Proof.
  intros Ha Hb. destruct (compare_not_nan a b Ha Hb) as [c Hc].
  unfold PyFloat.lt, PyFloat.ge. rewrite Hc. by destruct c.
Qed.

Lemma check_thresholds_run table l passed σ :
  check_thresholds table l passed σ =
  (Ret (passed &&
        forallb (λ mt, negb (PyFloat.lt (actual_of (deref σ l) mt.1) mt.2)) table),
   {| heap := heap σ;
      trace := trace σ ++ coverage_rows table (deref σ l) |}).
Proof.
  revert passed σ. induction table as [|[metric threshold] table IH];
    intros passed σ.
  - simpl. rewrite andb_true_r, app_nil_r. by destruct σ.
  - cbn [check_thresholds]. rewrite run_bind. unfold dict_get.
    rewrite run_bind. unfold emit. rewrite IH. simpl.
    unfold deref at 1 3 5. simpl. fold (deref σ l).
    fold (actual_of (deref σ l) metric).
    f_equal.
    + f_equal. destruct (PyFloat.lt _ threshold); simpl; [|done].
      by rewrite andb_false_r.
    + f_equal. by rewrite <- app_assoc.
Qed.

Lemma validate_against_run table l σ :
  validate_against table (Some l) σ =
  if bool_decide (deref σ l = ∅) then (Ret false, σ)
  else (Ret (forallb (λ mt, negb (PyFloat.lt (actual_of (deref σ l) mt.1) mt.2))
               table),
        {| heap := heap σ;
           trace := trace σ ++ coverage_rows table (deref σ l) |}).
Proof.
  unfold validate_against. rewrite run_bind. unfold dict_items.
  destruct (bool_decide (deref σ l = ∅)); [done|].
  by rewrite check_thresholds_run.
Qed.

Lemma validate_against_heap table cd σ :
  heap (validate_against table cd σ).2 = heap σ.
Proof.
  destruct cd as [l|]; [|done]. rewrite validate_against_run.
  by destruct (bool_decide (deref σ l = ∅)).
Qed.

(** The result and the printed rows depend on the contents of the dict
    only. *)
Lemma validate_against_contents table cd cd' σ σ' :
  deref σ <$> cd = deref σ' <$> cd' →
  (validate_against table cd' σ').1 = (validate_against table cd σ).1
  ∧ emitted σ' (validate_against table cd' σ').2
      = emitted σ (validate_against table cd σ).2.
Proof.
  destruct cd as [l|], cd' as [l'|]; intros Heq; simpl in Heq;
    try discriminate.
  - injection Heq as Heq. rewrite !validate_against_run, Heq.
    destruct (bool_decide (deref σ' l' = ∅)); simpl.
    + by rewrite !emitted_refl.
    + split; [done|].
      by rewrite !(emitted_app _ _ (coverage_rows table (deref σ' l'))).
  - by rewrite !emitted_refl.
Qed.

Lemma actual_of_insert_zero d metric k :
  d !! metric = None →
  actual_of (<[metric := PyFloat.zero]> d) k = actual_of d k.
Proof.
  intros Hnone. unfold actual_of. destruct (decide (metric = k)) as [->|Hne].
  - by rewrite lookup_insert_eq, Hnone.
  - by rewrite lookup_insert_ne.
Qed.

Lemma actual_of_not_nan d k : no_nan d → PyFloat.is_nan (actual_of d k) = false.
Proof.
  intros Hd. unfold actual_of. destruct (d !! k) as [v|] eqn:Hk; [|done].
  apply (Hd k v Hk).
Qed.

(** With no NaN among the measured values, the result over the source's
    table is the conjunction of [actual >= threshold]. *)
Lemma validate_result σ l :
  no_nan (deref σ l) →
  (validate_coverage_thresholds (Some l) σ).1
    = Ret (forallb (λ mt, PyFloat.ge (actual_of (deref σ l) mt.1) mt.2)
             thresholds).
Proof.
  intros Hnan. unfold validate_coverage_thresholds.
  rewrite validate_against_run. case_bool_decide as Hempty.
  - rewrite Hempty. reflexivity.
  - simpl. rewrite !lt_negb_ge, !negb_involutive;
      auto using actual_of_not_nan.
Qed.

(** C1: for every metric of the threshold table the validator reads the
    measured value, 0.0 when there is none; the row it prints for the
    metric says PASS exactly when [actual >= threshold]; the overall result
    is the conjunction of these per-metric results, so that a metric that
    is not measured counts as one measured at 0.0.  Measured values are
    percentages, hence not NaN. *)
Theorem validate_is_conjunction_of_metric_checks σ l :
  no_nan (deref σ l) →
  (validate_coverage_thresholds (Some l) σ).1
    = Ret (forallb (λ mt, PyFloat.ge (actual_of (deref σ l) mt.1) mt.2)
             thresholds)
  ∧ (deref σ l ≠ ∅ →
     emitted σ (validate_coverage_thresholds (Some l) σ).2
       = coverage_rows thresholds (deref σ l))
  ∧ (∀ σ0 metric,
       deref σ0 l !! metric = None →
       deref σ l = <[metric := PyFloat.zero]> (deref σ0 l) →
       (validate_coverage_thresholds (Some l) σ0).1
         = (validate_coverage_thresholds (Some l) σ).1).
Proof.
  intros Hnan. split; [by apply validate_result|split].
  - intros Hne. unfold validate_coverage_thresholds.
    rewrite validate_against_run. case_bool_decide; [done|].
    by apply emitted_app.
  - intros σ0 metric Hnone Hins.
    assert (no_nan (deref σ0 l)) as Hnan0.
    { intros k v Hk. apply (Hnan k v). rewrite Hins.
      rewrite lookup_insert_ne; [done|]. intros ->. congruence. }
    rewrite !validate_result by done. rewrite Hins. simpl.
    by rewrite !actual_of_insert_zero.
Qed.

(** C10: with [None] or an empty dict for the metrics the validator
    returns False at once, whatever the table (the empty one too): nothing
    is compared, no row is printed and the state is as before. *)
Theorem validate_without_metrics_fails table cd σ :
  cd = None ∨ (∃ l, cd = Some l ∧ deref σ l = ∅) →
  validate_against table cd σ = (Ret false, σ)
  ∧ validate_coverage_thresholds cd σ = (Ret false, σ).
Proof.
  intros [->|(l & -> & Hempty)]; [done|].
  unfold validate_coverage_thresholds. rewrite !validate_against_run.
  by rewrite !bool_decide_eq_true_2.
Qed.

(** C8: the validator changes no dict (the heap after the call is the heap
    before it; its table is a value of its own); its output, the result and
    the printed rows, is a function of the contents of the metrics dict; so
    a second call on the same argument gives the output of the first. *)
Theorem validate_deterministic_and_read_only table cd σ :
  heap (validate_against table cd σ).2 = heap σ
  ∧ (∀ cd' σ',
       deref σ <$> cd = deref σ' <$> cd' →
       (validate_against table cd' σ').1 = (validate_against table cd σ).1
       ∧ emitted σ' (validate_against table cd' σ').2
           = emitted σ (validate_against table cd σ).2)
  ∧ (let σ1 := (validate_against table cd σ).2 in
     (validate_against table cd σ1).1 = (validate_against table cd σ).1
     ∧ emitted σ1 (validate_against table cd σ1).2
         = emitted σ (validate_against table cd σ).2
     ∧ heap (validate_against table cd σ1).2 = heap σ).
Proof.
  split; [apply validate_against_heap|split].
  - intros cd' σ'. apply validate_against_contents.
  - pose proof (validate_against_heap table cd σ) as Hheap. cbv zeta.
    assert (deref σ <$> cd = deref (validate_against table cd σ).2 <$> cd)
      as Hsame.
    { destruct cd as [l|]; [|done]. cbn [fmap option_fmap option_map].
      unfold deref. by rewrite Hheap. }
    destruct (validate_against_contents table cd cd σ _ Hsame) as [H1 H2].
    split; [done|split; [done|]].
    by rewrite validate_against_heap.
Qed.

Lemma no_nan_decide d : bool_decide (no_nan d) = true → no_nan d.
Proof. apply bool_decide_eq_true_1. Qed.

End Validator.

(** ** The coverage parser *)

Section Parser.

Import Coverage.

Variable py_float : string → option spec_float.

Implicit Types (σ : pystate) (l : loc) (d : gmap string spec_float)
  (line : string) (lines : list string).

Lemma deref_set_dict σ l d : deref (set_dict σ l d) l = d.
Proof. unfold deref, set_dict. simpl. by rewrite lookup_insert_eq. Qed.

Lemma set_dict_set_dict σ l d d' :
  set_dict (set_dict σ l d) l d' = set_dict σ l d'.
Proof. unfold set_dict. simpl. by rewrite insert_insert_eq. Qed.

Lemma parse_lines_run lines l σ :
  parse_lines py_float lines l (set_dict σ l (deref σ l)) =
  ((scan_lines py_float lines (deref σ l)).1,
   set_dict σ l (scan_lines py_float lines (deref σ l)).2).
Proof.
  revert σ. induction lines as [|line lines IH]; intros σ; [done|].
  cbn [parse_lines scan_lines]. rewrite run_bind. unfold metric_label.
  assert (∀ k,
    (lift (percent_field py_float line) ≫= λ v, dict_set l k v)
      (set_dict σ l (deref σ l)) =
    match percent_field py_float line with
    | Ret v => (Ret tt, set_dict σ l (<[k := v]> (deref σ l)))
    | Raise e => (Raise e, set_dict σ l (deref σ l))
    end) as Hset.
  { intros k. rewrite run_bind. unfold lift.
    destruct (percent_field py_float line) as [v|e]; [|done].
    unfold dict_set. rewrite deref_set_dict. unfold set_dict. simpl.
    by rewrite insert_insert_eq. }
  assert (∀ k,
    match
      match percent_field py_float line with
      | Ret v => (Ret tt, set_dict σ l (<[k := v]> (deref σ l)))
      | Raise e => (Raise e, set_dict σ l (deref σ l))
      end
    with
    | (Ret _, σ') => parse_lines py_float lines l σ'
    | (Raise e, σ') => (Raise e, σ')
    end =
    ((match percent_field py_float line with
      | Ret v => scan_lines py_float lines (<[k := v]> (deref σ l))
      | Raise e => (Raise e, deref σ l)
      end).1,
     set_dict σ l
       (match percent_field py_float line with
        | Ret v => scan_lines py_float lines (<[k := v]> (deref σ l))
        | Raise e => (Raise e, deref σ l)
        end).2)) as Hstep.
  { intros k. destruct (percent_field py_float line) as [v|e]; [|done].
    specialize (IH (set_dict σ l (<[k := v]> (deref σ l)))).
    rewrite deref_set_dict, !set_dict_set_dict in IH. exact IH. }
  destruct (PyStr.contains "lines......:" line);
    [rewrite Hset; apply Hstep|].
  destruct (PyStr.contains "functions..:" line);
    [rewrite Hset; apply Hstep|].
  destruct (PyStr.contains "branches...:" line);
    [rewrite Hset; apply Hstep|].
  rewrite run_ret. apply IH.
Qed.

Lemma parse_summary_run summary σ :
  parse_summary py_float summary σ =
  (match (scan_lines py_float (PyStr.split PyStr.backslash_n summary) ∅).1 with
   | Ret _ => Ret (fresh (dom (heap σ)))
   | Raise e => Raise e
   end,
   set_dict σ (fresh (dom (heap σ)))
     (scan_lines py_float (PyStr.split PyStr.backslash_n summary) ∅).2).
Proof.
  unfold parse_summary. rewrite run_bind. unfold new_dict.
  set (l := fresh (dom (heap σ))).
  change {| heap := <[l := ∅]> (heap σ); trace := trace σ |}
    with (set_dict σ l ∅).
  rewrite run_bind.
  pose proof (parse_lines_run (PyStr.split PyStr.backslash_n summary) l
                (set_dict σ l ∅)) as Hrun.
  rewrite deref_set_dict, !set_dict_set_dict in Hrun. rewrite Hrun.
  by destruct (scan_lines py_float _ ∅) as [[[]|e] d].
Qed.

Lemma subprocess_run_run w argv σ :
  subprocess_run w argv σ =
  (match sh w argv with
   | Launched r => Ret r
   | Missing => Raise FileNotFoundError
   end, add_event σ (Exec argv)).
Proof.
  unfold subprocess_run. rewrite run_bind. unfold emit.
  by destruct (sh w argv).
Qed.

Lemma parse_coverage_results_run w root σ :
  parse_coverage_results py_float w root σ =
  if path_exists w (coverage_dir root ++ "/coverage_filtered.info")%string
  then
    match sh w (lcov_command root) with
    | Launched r =>
        (match metrics_of_summary py_float (stdout r) with
         | Some _ => Ret (Some (fresh (dom (heap σ))))
         | None => Ret None
         end,
         set_dict (add_event σ (Exec (lcov_command root)))
           (fresh (dom (heap σ)))
           (scan_lines py_float
              (PyStr.split PyStr.backslash_n (stdout r)) ∅).2)
    | Missing => (Ret None, add_event σ (Exec (lcov_command root)))
    end
  else (Ret None, σ).
Proof.
  unfold parse_coverage_results.
  destruct (path_exists w _); simpl; [|done].
  unfold try_except. rewrite run_bind, subprocess_run_run.
  fold (lcov_command root).
  destruct (sh w (lcov_command root)) as [r|]; [|done].
  rewrite run_bind, parse_summary_run. unfold metrics_of_summary. simpl.
  by destruct (scan_lines py_float _ ∅) as [[[]|e] d].
Qed.

(** What the parser returns holds the metrics of lcov's summary. *)
Lemma parse_coverage_results_metrics w root σ :
  ∃ cd, (parse_coverage_results py_float w root σ).1 = Ret cd
  ∧ deref (parse_coverage_results py_float w root σ).2 <$> cd
      = lcov_metrics py_float w root.
Proof.
  rewrite parse_coverage_results_run. unfold lcov_metrics.
  destruct (path_exists w _); [|by exists None].
  destruct (sh w (lcov_command root)) as [r|]; [|by exists None].
  unfold metrics_of_summary.
  destruct (scan_lines py_float _ ∅) as [[[]|e] d]; simpl.
  - eexists. split; [done|]. simpl. by rewrite deref_set_dict.
  - by exists None.
Qed.

(** A labelled line without a numeric second token ends the loop with an
    exception, wherever it stands. *)
Lemma scan_lines_raises lines d :
  existsb (unreadable py_float) lines = true →
  ∃ e d', scan_lines py_float lines d = (Raise e, d').
Proof.
  revert d. induction lines as [|line lines IH]; intros d; [done|].
  cbn [existsb scan_lines]. unfold unreadable.
  destruct (metric_label line) as [k|]; [|apply IH].
  destruct (percent_field py_float line) as [v|e]; [apply IH|eauto].
Qed.

(** C3, as the code has it: a labelled segment whose second token is
    missing or is no number makes [parse_coverage_results] give up.  The
    exception is caught around the whole loop and [None] is returned, so
    no metric is returned, those read before it included; the validator
    then fails on [None]. *)
Theorem malformed_token_abandons_parse w root σ r :
  path_exists w (coverage_dir root ++ "/coverage_filtered.info")%string = true →
  sh w (lcov_command root) = Launched r →
  existsb (unreadable py_float)
    (PyStr.split PyStr.backslash_n (stdout r)) = true →
  (parse_coverage_results py_float w root σ).1 = Ret None
  ∧ (validate_coverage_thresholds None
       (parse_coverage_results py_float w root σ).2).1 = Ret false.
Proof.
  intros Hexists Hsh Hbad. split; [|done].
  rewrite parse_coverage_results_run, Hexists, Hsh.
  unfold metrics_of_summary.
  destruct (scan_lines_raises _ ∅ Hbad) as (e & d' & ->). done.
Qed.

End Parser.


(** ** The stages and the orchestrator *)

Section Orchestrator.

Import Coverage.

Variable py_float : string → option spec_float.
Variable w : world.
Variable root : string.

Implicit Types (σ : pystate) (l : loc).

(** A stage returns whether the exit status is 0; a missing program is an
    exception that its handler, for another class, lets through. *)
Lemma run_stage_run env σ :
  try_except
    (result ← subprocess_run w (pio_command env);
     mret (returncode result =? 0)%Z)
    is_CalledProcessError (λ _, mret false) σ
  = (match sh w (pio_command env) with
     | Launched r => Ret (returncode r =? 0)%Z
     | Missing => Raise FileNotFoundError
     end, add_event σ (Exec (pio_command env))).
Proof.
  unfold try_except. rewrite run_bind, subprocess_run_run.
  by destruct (sh w (pio_command env)).
Qed.

Lemma run_unit_tests_run σ :
  run_unit_tests w σ
  = (match sh w (pio_command "test-coverage") with
     | Launched r => Ret (returncode r =? 0)%Z
     | Missing => Raise FileNotFoundError
     end, add_event σ (Exec (pio_command "test-coverage"))).
Proof. apply run_stage_run. Qed.

Lemma run_integration_tests_run σ :
  run_integration_tests w σ
  = (match sh w (pio_command "test-integration") with
     | Launched r => Ret (returncode r =? 0)%Z
     | Missing => Raise FileNotFoundError
     end, add_event σ (Exec (pio_command "test-integration"))).
Proof. apply run_stage_run. Qed.

Lemma run_performance_tests_run σ :
  run_performance_tests w σ
  = (match sh w (pio_command "test-performance") with
     | Launched r => Ret (returncode r =? 0)%Z
     | Missing => Raise FileNotFoundError
     end, add_event σ (Exec (pio_command "test-performance"))).
Proof. apply run_stage_run. Qed.

Lemma run_memory_tests_run σ :
  run_memory_tests w σ
  = (match sh w (pio_command "test-memory") with
     | Launched r => Ret (returncode r =? 0)%Z
     | Missing => Raise FileNotFoundError
     end, add_event σ (Exec (pio_command "test-memory"))).
Proof. apply run_stage_run. Qed.

Lemma run_gcov_result files σ :
  (run_gcov w files σ).1
    = (if gcov_ok w files then Ret tt else Raise FileNotFoundError)
  ∧ heap (run_gcov w files σ).2 = heap σ.
Proof.
  revert σ. induction files as [|f files IH]; intros σ; [done|].
  cbn [run_gcov gcov_ok forallb]. rewrite run_bind.
  destruct (path_exists w (path_str (with_suffix f ".cpp"))).
  - rewrite run_bind, subprocess_run_run. fold (gcov_command f).
    unfold launches. destruct (sh w (gcov_command f)); [|done].
    rewrite run_ret. cbn [fst snd andb].
    destruct (IH (add_event σ (Exec (gcov_command f)))) as [Hres Hheap].
    by rewrite Hres, Hheap.
  - rewrite run_ret. cbn [fst snd andb]. apply IH.
Qed.

Lemma generate_coverage_report_result σ :
  (generate_coverage_report w root σ).1 = Ret (coverage_generated w root)
  ∧ heap (generate_coverage_report w root σ).2 = heap σ.
Proof.
  unfold generate_coverage_report, coverage_generated, try_except.
  destruct (rglob w (build_dir root) "*.gcno") as [|f files]; [done|].
  rewrite run_bind.
  destruct (run_gcov_result (f :: files) σ) as [Hres Hheap].
  remember (gcov_ok w (f :: files)) as g eqn:Hg.
  destruct (run_gcov w (f :: files) σ) as [[[]|e] σ']; cbn [fst snd] in *.
  - destruct g; [|discriminate]. done.
  - destruct g; [discriminate|]. done.
Qed.

Lemma validate_coverage_thresholds_result cd σ :
  validate_coverage_thresholds cd σ
  = (Ret (thresholds_met (deref σ <$> cd)),
     (validate_coverage_thresholds cd σ).2).
Proof.
  destruct cd as [l|]; [|done]. unfold validate_coverage_thresholds.
  rewrite validate_against_run. simpl.
  by destruct (bool_decide (deref σ l = ∅)).
Qed.

Lemma or_empty_dict_result cd σ :
  ∃ l, (or_empty_dict cd σ).1 = Ret l
  ∧ trace (or_empty_dict cd σ).2 = trace σ.
Proof.
  destruct cd as [l|]; simpl.
  - rewrite run_bind. unfold dict_items.
    destruct (bool_decide (deref σ l = ∅)); eauto.
  - eauto.
Qed.

Lemma generate_test_report_result u i cd p m σ :
  launches w date_command = true →
  ∃ rep, (generate_test_report w root u i cd p m σ).1 = Ret rep.
Proof.
  unfold launches. intros Hdate. unfold generate_test_report.
  rewrite run_bind.
  destruct (or_empty_dict_result cd σ) as (l & Hl & _).
  destruct (or_empty_dict cd σ) as [o σ1]. simpl in Hl. subst o.
  rewrite run_bind, subprocess_run_run. fold date_command.
  destruct (sh w date_command) as [r|]; [|discriminate].
  rewrite run_bind. unfold dict_items. rewrite run_bind. unfold emit.
  rewrite run_ret. eauto.
Qed.

Lemma setup_coverage_environment_run σ :
  setup_coverage_environment root σ
  = (Ret coverage_flags, add_event σ (MkDir (coverage_dir root))).
Proof. reflexivity. Qed.

(** The exit code when every program that is called can be launched. *)
Lemma run_all_tests_result sp sm σ :
  launches w (pio_command "test-coverage") = true →
  launches w (pio_command "test-integration") = true →
  (sp = false → launches w (pio_command "test-performance") = true) →
  (sm = false → launches w (pio_command "test-memory") = true) →
  launches w date_command = true →
  (run_all_tests py_float w root sp sm σ).1
  = Ret (if stage_passed w "test-coverage"
            && stage_passed w "test-integration"
            && (sp || stage_passed w "test-performance")
            && (sm || stage_passed w "test-memory")
            && coverage_generated w root
            && thresholds_met
                 (if coverage_generated w root
                  then lcov_metrics py_float w root else None)
         then 0%Z else 1%Z).
Proof.
  unfold launches, stage_passed. intros Hunit Hint Hperf Hmem Hdate.
  unfold run_all_tests.
  rewrite run_bind, setup_coverage_environment_run.
  rewrite run_bind, run_unit_tests_run.
  destruct (sh w (pio_command "test-coverage")) as [ru|]; [|discriminate].
  rewrite run_bind, run_integration_tests_run.
  destruct (sh w (pio_command "test-integration")) as [ri|]; [|discriminate].
  set (σ2 := add_event _ _). clearbody σ2.
  rewrite run_bind.
  assert (∃ σ3,
    (if negb sp then run_performance_tests w else mret true) σ2
    = (Ret (sp || match sh w (pio_command "test-performance") with
                  | Launched r => (returncode r =? 0)%Z
                  | Missing => false
                  end), σ3)) as [σ3 ->].
  { destruct sp; simpl; [by eexists|].
    rewrite run_performance_tests_run. specialize (Hperf eq_refl).
    destruct (sh w (pio_command "test-performance")); [|discriminate].
    by eexists. }
  rewrite run_bind.
  assert (∃ σ4,
    (if negb sm then run_memory_tests w else mret true) σ3
    = (Ret (sm || match sh w (pio_command "test-memory") with
                  | Launched r => (returncode r =? 0)%Z
                  | Missing => false
                  end), σ4)) as [σ4 ->].
  { destruct sm; simpl; [by eexists|].
    rewrite run_memory_tests_run. specialize (Hmem eq_refl).
    destruct (sh w (pio_command "test-memory")); [|discriminate].
    by eexists. }
  rewrite run_bind.
  destruct (generate_coverage_report_result σ4) as [Hgen _].
  destruct (generate_coverage_report w root σ4) as [og σ5].
  cbn [fst] in Hgen. subst og.
  rewrite run_bind.
  assert (∃ cd σ6,
    (if coverage_generated w root
     then parse_coverage_results py_float w root else mret None) σ5
    = (Ret cd, σ6)
    ∧ deref σ6 <$> cd
      = (if coverage_generated w root
         then lcov_metrics py_float w root else None))
    as (cd & σ6 & -> & Hcd).
  { destruct (coverage_generated w root).
    - destruct (parse_coverage_results_metrics py_float w root σ5)
        as (cd & Hres & Hm).
      destruct (parse_coverage_results py_float w root σ5) as [o σ6].
      cbn [fst snd] in *. subst o. by exists cd, σ6.
    - by exists None, σ5. }
  rewrite run_bind, validate_coverage_thresholds_result, Hcd.
  set (σ7 := (validate_coverage_thresholds cd σ6).2). clearbody σ7.
  rewrite run_bind.
  match goal with
  | |- context [generate_test_report w root ?u ?i cd ?p ?m σ7] =>
      destruct (generate_test_report_result u i cd p m σ7 Hdate) as [rep Hrep];
      destruct (generate_test_report w root u i cd p m σ7) as [o σ8]
  end.
  cbn [fst] in Hrep. subst o. by rewrite run_ret.
Qed.

End Orchestrator.

(** ** What a computation adds to the trace *)

Section Emits.

Import Coverage.

Context {Ev : event → Prop}.

Lemma emits_ret {A} (a : A) (R : A → Prop) : R a → emits (mret a) Ev R.
Proof.
  intros HR σ. exists []. rewrite app_nil_r.
  split; [done|split; [done|]]. intros a' [= <-]. done.
Qed.

Lemma emits_silent {A} (m : M A) (R : A → Prop) :
  (∀ σ, trace (m σ).2 = trace σ) → (∀ σ a, (m σ).1 = Ret a → R a) →
  emits m Ev R.
Proof.
  intros Htr HR σ. exists []. rewrite app_nil_r, Htr. eauto.
Qed.

Lemma emits_bind {A B} (m : M A) (f : A → M B) (R1 : A → Prop)
    (R : B → Prop) :
  emits m Ev R1 → (∀ a, R1 a → emits (f a) Ev R) → emits (m ≫= f) Ev R.
Proof.
  intros Hm Hf σ. rewrite run_bind.
  destruct (Hm σ) as (evs1 & Htr1 & Hev1 & HR1).
  destruct (m σ) as [[a|e] σ1]; cbn [fst snd] in *.
  - destruct (Hf a (HR1 a eq_refl) σ1) as (evs2 & Htr2 & Hev2 & HR2).
    exists (evs1 ++ evs2). rewrite Htr2, Htr1, app_assoc.
    split; [done|split; [by apply Forall_app|done]].
  - exists evs1. split; [done|split; [done|]]. intros b [=].
Qed.

Lemma emits_try {A} (body : M A) catches (handler : exn → M A)
    (R : A → Prop) :
  emits body Ev R → (∀ e, emits (handler e) Ev R) →
  emits (try_except body catches handler) Ev R.
Proof.
  intros Hb Hh σ. unfold try_except.
  destruct (Hb σ) as (evs1 & Htr1 & Hev1 & HR1).
  destruct (body σ) as [[a|e] σ1]; cbn [fst snd] in *.
  - exists evs1. eauto.
  - destruct (catches e).
    + destruct (Hh e σ1) as (evs2 & Htr2 & Hev2 & HR2).
      exists (evs1 ++ evs2). rewrite Htr2, Htr1, app_assoc.
      split; [done|split; [by apply Forall_app|done]].
    + exists evs1. split; [done|split; [done|]]. intros b [=].
Qed.

Lemma emits_emit ev (R : unit → Prop) : Ev ev → R tt → emits (emit ev) Ev R.
Proof.
  intros Hev HR σ. exists [ev].
  split; [done|split; [by apply Forall_singleton|]]. by intros [].
Qed.

Lemma emits_subprocess_run w argv :
  Ev (Exec argv) → emits (subprocess_run w argv) Ev (λ _, True).
Proof.
  intros Hev σ. rewrite subprocess_run_run. exists [Exec argv].
  split; [done|split; [by apply Forall_singleton|done]].
Qed.

Lemma emits_weaken {A} (m : M A) (R R' : A → Prop) :
  emits m Ev R → (∀ a, R a → R' a) → emits m Ev R'.
Proof.
  intros Hm HR σ. destruct (Hm σ) as (evs & Htr & Hev & HRa).
  exists evs. eauto.
Qed.

Lemma emits_stage w env (R : bool → Prop) :
  Ev (Exec (pio_command env)) → (∀ b, R b) →
  emits (try_except
           (result ← subprocess_run w (pio_command env);
            mret (returncode result =? 0)%Z)
           is_CalledProcessError (λ _, mret false)) Ev R.
Proof.
  intros Hev HR. apply emits_try.
  - eapply (emits_bind _ _ (λ _, True)); [by apply emits_subprocess_run|].
    intros r _. by apply emits_ret.
  - intros e. by apply emits_ret.
Qed.

Lemma emits_run_gcov w files :
  (∀ f, Ev (Exec (gcov_command f))) → emits (run_gcov w files) Ev (λ _, True).
Proof.
  intros Hev. induction files as [|f files IH]; [by apply emits_ret|].
  cbn [run_gcov]. eapply (emits_bind _ _ (λ _, True)); [|intros _ _; apply IH].
  destruct (path_exists w _); [|by apply emits_ret].
  eapply (emits_bind _ _ (λ _, True)); [apply emits_subprocess_run, Hev|].
  intros _ _. by apply emits_ret.
Qed.

Lemma emits_generate_coverage_report w root :
  (∀ f, Ev (Exec (gcov_command f))) →
  (∀ file names, Ev (WriteCoverageReport file names)) →
  emits (generate_coverage_report w root) Ev
    (λ b, b = coverage_generated w root).
Proof.
  intros Hgcov Hwrite.
  assert (emits (generate_coverage_report w root) Ev (λ _, True)) as Hem.
  { unfold generate_coverage_report. apply emits_try.
    - destruct (rglob w (build_dir root) "*.gcno") as [|f files];
        [by apply emits_ret|].
      eapply (emits_bind _ _ (λ _, True)); [by apply emits_run_gcov|]. intros _ _.
      eapply (emits_bind _ _ (λ _, True)); [by apply (emits_emit _ (λ _, True))|].
      intros _ _. by apply emits_ret.
    - intros e. by apply emits_ret. }
  intros σ. destruct (Hem σ) as (evs & Htr & Hev & _).
  exists evs. split; [done|split; [done|]].
  intros b Hb. destruct (generate_coverage_report_result w root σ) as [Hres _].
  rewrite Hres in Hb. by injection Hb.
Qed.

Lemma emits_lift {A} (o : outcome A) : emits (lift o) Ev (λ _, True).
Proof. by apply emits_silent. Qed.

Lemma emits_dict_set l k v : emits (dict_set l k v) Ev (λ _, True).
Proof. by apply emits_silent. Qed.

Lemma emits_new_dict : emits new_dict Ev (λ _, True).
Proof. by apply emits_silent. Qed.

Lemma emits_dict_items l : emits (dict_items l) Ev (λ _, True).
Proof. by apply emits_silent. Qed.

Lemma emits_dict_get l k v : emits (dict_get l k v) Ev (λ _, True).
Proof. by apply emits_silent. Qed.

Lemma emits_parse_lines py_float lines l :
  emits (parse_lines py_float lines l) Ev (λ _, True).
Proof.
  induction lines as [|line lines IH]; [by apply emits_ret|].
  cbn [parse_lines].
  eapply (emits_bind _ _ (λ _, True)); [|intros _ _; apply IH].
  assert (∀ k, emits (lift (percent_field py_float line)
                        ≫= λ v, dict_set l k v) Ev (λ _, True)) as Hset.
  { intros k. eapply (emits_bind _ _ (λ _, True)); [apply emits_lift|].
    intros v _. apply emits_dict_set. }
  repeat (destruct (PyStr.contains _ line); [apply Hset|]).
  by apply emits_ret.
Qed.

Lemma emits_parse_coverage_results py_float w root :
  Ev (Exec (lcov_command root)) →
  emits (parse_coverage_results py_float w root) Ev (λ _, True).
Proof.
  intros Hev. unfold parse_coverage_results.
  destruct (negb (path_exists w _)); [by apply emits_ret|].
  apply emits_try; [|intros e; by apply emits_ret].
  eapply (emits_bind _ _ (λ _, True)); [by apply emits_subprocess_run|]. intros r _.
  eapply (emits_bind _ _ (λ _, True)); [|intros l _; by apply emits_ret].
  unfold parse_summary.
  eapply (emits_bind _ _ (λ _, True)); [apply emits_new_dict|]. intros l _.
  eapply (emits_bind _ _ (λ _, True)); [apply emits_parse_lines|]. intros _ _.
  by apply emits_ret.
Qed.

Lemma emits_check_thresholds table l passed :
  (∀ metric actual threshold status,
     Ev (PrintCoverageRow metric actual threshold status)) →
  emits (check_thresholds table l passed) Ev (λ _, True).
Proof.
  intros Hev. revert passed.
  induction table as [|[metric threshold] table IH]; intros passed;
    [by apply emits_ret|].
  cbn [check_thresholds].
  eapply (emits_bind _ _ (λ _, True)); [apply emits_dict_get|]. intros actual _.
  eapply (emits_bind _ _ (λ _, True)); [by apply (emits_emit _ (λ _, True))|].
  intros _ _. apply IH.
Qed.

Lemma emits_validate_coverage_thresholds cd :
  (∀ metric actual threshold status,
     Ev (PrintCoverageRow metric actual threshold status)) →
  emits (validate_coverage_thresholds cd) Ev (λ _, True).
Proof.
  intros Hev. unfold validate_coverage_thresholds, validate_against.
  destruct cd as [l|]; [|by apply emits_ret].
  eapply (emits_bind _ _ (λ _, True)); [apply emits_dict_items|]. intros d _.
  destruct (bool_decide (d = ∅)); [by apply emits_ret|].
  by apply emits_check_thresholds.
Qed.

Lemma emits_or_empty_dict cd : emits (or_empty_dict cd) Ev (λ _, True).
Proof.
  destruct cd as [l|]; [|apply emits_new_dict]. simpl.
  eapply (emits_bind _ _ (λ _, True)); [apply emits_dict_items|]. intros d _.
  destruct (bool_decide (d = ∅)); [apply emits_new_dict|by apply emits_ret].
Qed.

Lemma emits_generate_test_report w root u i cd p m :
  Ev (Exec date_command) →
  (∀ file r,
     unit_tests r = pass_fail u → integration_tests r = pass_fail i →
     performance_tests r = pass_fail p → memory_tests r = pass_fail m →
     Ev (WriteTestReport file r)) →
  emits (generate_test_report w root u i cd p m) Ev (λ _, True).
Proof.
  intros Hdate Hwrite. unfold generate_test_report.
  eapply (emits_bind _ _ (λ _, True)); [apply emits_or_empty_dict|]. intros cov _.
  eapply (emits_bind _ _ (λ _, True)); [by apply emits_subprocess_run|]. intros date _.
  eapply (emits_bind _ _ (λ _, True)); [apply emits_dict_items|]. intros d _.
  eapply (emits_bind _ _ (λ _, True)); [|intros _ _; by apply emits_ret].
  apply (emits_emit _ (λ _, True)); [|done]. by apply Hwrite.
Qed.

End Emits.

(** ** The full run *)

Section FullRun.

Import Coverage.

Variable py_float : string → option spec_float.
Variable root : string.

Implicit Types (w : world) (σ : pystate) (sp sm : bool).

Lemma emits_run_all_tests (Ev : event → Prop) w sp sm :
  Ev (MkDir (coverage_dir root)) →
  Ev (Exec (pio_command "test-coverage")) →
  Ev (Exec (pio_command "test-integration")) →
  (sp = false → Ev (Exec (pio_command "test-performance"))) →
  (sm = false → Ev (Exec (pio_command "test-memory"))) →
  (∀ f, Ev (Exec (gcov_command f))) →
  (∀ file names, Ev (WriteCoverageReport file names)) →
  (coverage_generated w root = true → Ev (Exec (lcov_command root))) →
  (∀ metric actual threshold status,
     Ev (PrintCoverageRow metric actual threshold status)) →
  Ev (Exec date_command) →
  (∀ file r,
     (sp = true → performance_tests r = "PASS") →
     (sm = true → memory_tests r = "PASS") →
     Ev (WriteTestReport file r)) →
  emits (run_all_tests py_float w root sp sm) Ev (λ _, True).
Proof.
  intros Hmk Hunit Hint Hperf Hmem Hgcov Hcov Hlcov Hrow Hdate Hrep.
  unfold run_all_tests.
  eapply emits_bind.
  { unfold setup_coverage_environment.
    eapply (emits_bind _ _ (λ _, True)); [by apply (emits_emit _ (λ _, True))|].
    intros _ _. by apply (emits_ret _ (λ _, True)). }
  intros _ _.
  eapply (emits_bind _ _ (λ _, True)); [by apply (emits_stage w _ (λ _, True))|]. intros u _.
  eapply (emits_bind _ _ (λ _, True)); [by apply (emits_stage w _ (λ _, True))|]. intros i _.
  eapply (emits_bind _ _ (λ b, sp = true → b = true)).
  { destruct sp; simpl.
    - by apply emits_ret.
    - apply emits_stage; [by apply Hperf|]. intros b [=]. }
  intros p Hp.
  eapply (emits_bind _ _ (λ b, sm = true → b = true)).
  { destruct sm; simpl.
    - by apply emits_ret.
    - apply emits_stage; [by apply Hmem|]. intros b [=]. }
  intros m Hm.
  eapply (emits_bind _ _ (λ b, b = coverage_generated w root));
    [by apply emits_generate_coverage_report|].
  intros g ->.
  eapply (emits_bind _ _ (λ _, True)).
  { destruct (coverage_generated w root).
    - by apply emits_parse_coverage_results, Hlcov.
    - by apply emits_ret. }
  intros cd _.
  eapply (emits_bind _ _ (λ _, True)); [by apply emits_validate_coverage_thresholds|].
  intros c _.
  eapply (emits_bind _ _ (λ _, True)); [|intros _ _; by apply emits_ret].
  apply emits_generate_test_report; [done|].
  intros file r _ _ Hrp Hrm. apply Hrep.
  - intros Hsp. rewrite Hrp, (Hp Hsp). done.
  - intros Hsm. rewrite Hrm, (Hm Hsm). done.
Qed.

(** C2: provided the programs it calls can be launched, [run_all_tests]
    returns 0 exactly when the unit, integration, performance and memory
    results (the last two true when skipped), the generation of the
    coverage report and the validation of the thresholds are all true, and
    1 otherwise.  When the generation fails the parser is not called (lcov
    is not run), the validator gets [None] and fails, and the run
    returns 1. *)
Theorem run_all_tests_exit_code w sp sm σ :
  launches w (pio_command "test-coverage") = true →
  launches w (pio_command "test-integration") = true →
  (sp = false → launches w (pio_command "test-performance") = true) →
  (sm = false → launches w (pio_command "test-memory") = true) →
  launches w date_command = true →
  (run_all_tests py_float w root sp sm σ).1
  = Ret (if stage_passed w "test-coverage"
            && stage_passed w "test-integration"
            && (sp || stage_passed w "test-performance")
            && (sm || stage_passed w "test-memory")
            && coverage_generated w root
            && thresholds_met
                 (if coverage_generated w root
                  then lcov_metrics py_float w root else None)
         then 0%Z else 1%Z)
  ∧ (coverage_generated w root = false →
     (run_all_tests py_float w root sp sm σ).1 = Ret 1%Z
     ∧ Exec (lcov_command root)
         ∉ emitted σ (run_all_tests py_float w root sp sm σ).2).
Proof.
  intros Hunit Hint Hperf Hmem Hdate.
  pose proof (run_all_tests_result py_float w root sp sm σ
                Hunit Hint Hperf Hmem Hdate) as Hres.
  split; [exact Hres|]. intros Hgen. split.
  - rewrite Hres, Hgen. by rewrite !andb_false_r.
  - destruct (emits_run_all_tests (λ ev, ev ≠ Exec (lcov_command root))
                w sp sm) with (σ := σ) as (evs & Htr & Hev & _);
      try (intros; discriminate).
    + intros; congruence.
    + rewrite (emitted_app _ _ _ Htr). intros Hin.
      rewrite Forall_forall in Hev. by apply (Hev _ Hin).
Qed.

End FullRun.

(** ** Skipped stages and missing programs *)

Section Skips.

Import Coverage.

Variable py_float : string → option spec_float.
Variable root : string.

Implicit Types (w : world) (σ : pystate) (sp sm : bool) (o : launch).

Lemma bind_cong {A B} (m m' : M A) (f f' : A → M B) σ :
  m σ = m' σ → (∀ a σ', f a σ' = f' a σ') → (m ≫= f) σ = (m' ≫= f') σ.
Proof.
  intros Hm Hf. rewrite !run_bind, Hm.
  destruct (m' σ) as [[a|e] σ']; [apply Hf|done].
Qed.

Lemma sh_override_ne w a o argv :
  argv ≠ a → sh (override w a o) argv = sh w argv.
Proof. intros Hne. simpl. by rewrite decide_False. Qed.

Lemma subprocess_run_override w a o argv σ :
  argv ≠ a → subprocess_run (override w a o) argv σ = subprocess_run w argv σ.
Proof. intros Hne. by rewrite !subprocess_run_run, sh_override_ne. Qed.

Lemma run_stage_override w a o env σ :
  pio_command env ≠ a →
  try_except
    (result ← subprocess_run (override w a o) (pio_command env);
     mret (returncode result =? 0)%Z)
    is_CalledProcessError (λ _, mret false) σ
  = try_except
      (result ← subprocess_run w (pio_command env);
       mret (returncode result =? 0)%Z)
      is_CalledProcessError (λ _, mret false) σ.
Proof. intros Hne. by rewrite !run_stage_run, sh_override_ne. Qed.

Lemma run_gcov_override w env o files σ :
  run_gcov (override w (pio_command env) o) files σ = run_gcov w files σ.
Proof.
  revert σ. induction files as [|f files IH]; intros σ; [done|].
  cbn [run_gcov]. apply bind_cong; [|intros _ σ'; apply IH].
  change (path_exists (override w (pio_command env) o))
    with (path_exists w).
  destruct (path_exists w _); [|done].
  apply bind_cong; [|done]. by apply subprocess_run_override.
Qed.

Lemma generate_coverage_report_override w env o σ :
  generate_coverage_report (override w (pio_command env) o) root σ
  = generate_coverage_report w root σ.
Proof.
  unfold generate_coverage_report, try_except.
  change (rglob (override w (pio_command env) o)) with (rglob w).
  destruct (rglob w (build_dir root) "*.gcno") as [|f files]; [done|].
  assert ((run_gcov (override w (pio_command env) o) (f :: files) ≫= λ _,
             emit (WriteCoverageReport
                     (coverage_dir root ++ "/coverage_report.txt")%string
                     (map path_name (f :: files))) ≫= λ _, mret true) σ
          = (run_gcov w (f :: files) ≫= λ _,
             emit (WriteCoverageReport
                     (coverage_dir root ++ "/coverage_report.txt")%string
                     (map path_name (f :: files))) ≫= λ _, mret true) σ)
    as ->; [|done].
  apply bind_cong; [apply run_gcov_override|done].
Qed.

Lemma parse_coverage_results_override w env o σ :
  parse_coverage_results py_float (override w (pio_command env) o) root σ
  = parse_coverage_results py_float w root σ.
Proof.
  rewrite !parse_coverage_results_run.
  change (path_exists (override w (pio_command env) o))
    with (path_exists w).
  by rewrite sh_override_ne.
Qed.

Lemma generate_test_report_override w env o u i cd p m σ :
  generate_test_report (override w (pio_command env) o) root u i cd p m σ
  = generate_test_report w root u i cd p m σ.
Proof.
  unfold generate_test_report. apply bind_cong; [done|]. intros cov σ1.
  apply bind_cong; [|done]. by apply subprocess_run_override.
Qed.

(** A stage that is not called may do what it will. *)
Lemma run_all_tests_override w env o sp sm σ :
  env ≠ "test-coverage" → env ≠ "test-integration" →
  (sp = false → env ≠ "test-performance") →
  (sm = false → env ≠ "test-memory") →
  run_all_tests py_float (override w (pio_command env) o) root sp sm σ
  = run_all_tests py_float w root sp sm σ.
Proof.
  intros Hunit Hint Hperf Hmem.
  assert (∀ e, env ≠ e → pio_command e ≠ pio_command env) as Hcmd.
  { intros e Hne [=]. by apply Hne. }
  unfold run_all_tests. apply bind_cong; [done|]. intros _ σ1.
  apply bind_cong; [by apply run_stage_override, Hcmd|]. intros u σ2.
  apply bind_cong; [by apply run_stage_override, Hcmd|]. intros i σ3.
  apply bind_cong.
  { destruct sp; [done|]. by apply run_stage_override, Hcmd, Hperf. }
  intros p σ4. apply bind_cong.
  { destruct sm; [done|]. by apply run_stage_override, Hcmd, Hmem. }
  intros m σ5.
  apply bind_cong; [apply generate_coverage_report_override|]. intros g σ6.
  apply bind_cong.
  { destruct g; [apply parse_coverage_results_override|done]. }
  intros cd σ7. apply bind_cong; [done|]. intros c σ8.
  apply bind_cong; [apply generate_test_report_override|done].
Qed.

(** When the program of the unit stage is missing the run ends there, with
    the exception: no later stage is called and no report is written. *)
Lemma run_all_tests_missing_unit w sp sm σ :
  sh w (pio_command "test-coverage") = Missing →
  run_all_tests py_float w root sp sm σ
  = (Raise FileNotFoundError,
     add_event (add_event σ (MkDir (coverage_dir root)))
       (Exec (pio_command "test-coverage"))).
Proof.
  intros Hsh. unfold run_all_tests.
  rewrite run_bind, setup_coverage_environment_run.
  by rewrite run_bind, run_unit_tests_run, Hsh.
Qed.

End Skips.

(** ** Runs on concrete inputs *)

Import Wokwi Coverage.

Lemma phase_completion_monotonic_witness :
  completed
    (monitor (take 1 ["boot"; "SplashPanel loaded successfully"])
       (<["startup" := true]> test_phases)).2
    ⊆ completed
        (monitor (take 2 ["boot"; "SplashPanel loaded successfully"])
           (<["startup" := true]> test_phases)).2
  ∧ (update_test_phases "Gauge animation"
       (<["startup" := true]> test_phases)).2 !! "startup" = Some true.
Proof.
  destruct (phase_completion_monotonic
              ["boot"; "SplashPanel loaded successfully"] 1
              (<["startup" := true]> test_phases)) as [Hsub Hkeep].
  split; [exact Hsub|].
  apply Hkeep. compute_done.
Defined.

Lemma startup_line_idempotent_unrelated_noop_witness :
  (update_test_phases "SplashPanel loaded successfully" test_phases).2
     !! "startup" = Some true
  ∧ (update_test_phases "Booting Clarity" test_phases).2 = test_phases.
Proof.
  destruct startup_line_idempotent_unrelated_noop as (_ & Hstart & _ & Hnoop).
  split.
  - apply Hstart. compute_done.
  - apply Hnoop. vm_compute. reflexivity.
Defined.

Lemma validate_is_conjunction_of_metric_checks_witness :
  (validate_coverage_thresholds (Some 1%positive)
     (Samples.with_dict Samples.measured)).1 = Ret false
  ∧ emitted (Samples.with_dict Samples.measured)
      (validate_coverage_thresholds (Some 1%positive)
         (Samples.with_dict Samples.measured)).2
    = [ PrintCoverageRow "line_coverage" (PyFloat.of_Z 90) f85 "PASS";
        PrintCoverageRow "function_coverage" (PyFloat.of_Z 93) f95 "FAIL";
        PrintCoverageRow "branch_coverage" (PyFloat.of_Z 85) f80 "PASS" ].
Proof.
  assert (no_nan (deref (Samples.with_dict Samples.measured) 1%positive))
    as Hnan.
  { apply no_nan_decide. vm_compute. reflexivity. }
  destruct (validate_is_conjunction_of_metric_checks
              (Samples.with_dict Samples.measured) 1%positive Hnan)
    as (Hres & Hrows & _).
  split.
  - etrans; [exact Hres|]. vm_compute. reflexivity.
  - etrans; [apply Hrows; compute_done|]. vm_compute. reflexivity.
Defined.

Lemma validate_without_metrics_fails_witness :
  validate_against [] (Some 1%positive) (Samples.with_dict ∅)
    = (Ret false, Samples.with_dict ∅)
  ∧ validate_coverage_thresholds None Samples.init = (Ret false, Samples.init).
Proof.
  split.
  - apply (validate_without_metrics_fails [] (Some 1%positive)
             (Samples.with_dict ∅)).
    right. exists 1%positive. split; [reflexivity|compute_done].
  - apply (validate_without_metrics_fails [] None Samples.init).
    left. reflexivity.
Defined.

Lemma validate_deterministic_and_read_only_witness :
  (validate_against thresholds (Some 2%positive)
     {| heap := {[ 2%positive := Samples.measured ]};
        trace := [MkDir "coverage"] |}).1
  = (validate_against thresholds (Some 1%positive)
       (Samples.with_dict Samples.measured)).1.
Proof.
  destruct (validate_deterministic_and_read_only thresholds
              (Some 1%positive) (Samples.with_dict Samples.measured))
    as (_ & Hsame & _).
  apply (Hsame (Some 2%positive)). compute_done.
Defined.

(** The example of the specification: one line gives one metric. *)
Example parse_one_line :
  (parse_summary Samples.decimal_float Samples.one_line Samples.init).1
    = Ret 1%positive
  ∧ deref (parse_summary Samples.decimal_float Samples.one_line
             Samples.init).2 1%positive
    = {[ "line_coverage" := Samples.f92_3 ]}.
Proof. compute_done. Qed.

(** The empty summary gives the empty dict. *)
Example parse_empty :
  (parse_summary Samples.decimal_float "" Samples.init).1 = Ret 1%positive
  ∧ deref (parse_summary Samples.decimal_float "" Samples.init).2 1%positive
    = ∅.
Proof. compute_done. Qed.

(** Segments cut by backslash, n are each read. *)
Example parse_segments :
  metrics_of_summary Samples.decimal_float Samples.good_summary
  = Some (<["line_coverage" := Samples.f92_3]>
          (<["function_coverage" := f95]>
          (<["branch_coverage" := Samples.f92_3]> ∅))).
Proof. compute_done. Qed.

(** C5 at a summary of two lines: the text is cut at backslash, n and not
    at the line feed, so the two lines are one segment; it is filed under
    the first label of the chain and its second token is read: the
    function metric is not recorded. *)
Theorem parse_two_lines_records_first_only :
  metrics_of_summary Samples.decimal_float Samples.two_lines
    = Some {[ "line_coverage" := Samples.f92_3 ]}
  ∧ (parse_coverage_results Samples.decimal_float
       (Samples.sample_world Samples.all_pass true Samples.two_lines) "."
       Samples.init).1 = Ret (Some 1%positive)
  ∧ deref
      (parse_coverage_results Samples.decimal_float
         (Samples.sample_world Samples.all_pass true Samples.two_lines) "."
         Samples.init).2 1%positive
    = {[ "line_coverage" := Samples.f92_3 ]}.
Proof. compute_done. Qed.

(** C3 as stated fails: with no number on the "lines" line the parser
    returns [None]; the function metric of the next line is not returned. *)
Lemma malformed_token_skipped_counterexample :
  (parse_coverage_results Samples.decimal_float
     (Samples.sample_world Samples.all_pass true Samples.malformed_first) "."
     Samples.init).1 = Ret None
  ∧ ¬ ∃ l,
      (parse_coverage_results Samples.decimal_float
         (Samples.sample_world Samples.all_pass true Samples.malformed_first)
         "." Samples.init).1 = Ret (Some l)
      ∧ deref
          (parse_coverage_results Samples.decimal_float
             (Samples.sample_world Samples.all_pass true
                Samples.malformed_first) "." Samples.init).2 l
          !! "function_coverage" = Some f95.
Proof.
  assert ((parse_coverage_results Samples.decimal_float
     (Samples.sample_world Samples.all_pass true Samples.malformed_first) "."
     Samples.init).1 = Ret None) as Hnone by compute_done.
  split; [exact Hnone|].
  intros (l & Hl & _). rewrite Hnone in Hl. discriminate.
Qed.

(** The same with the segments cut the way the code cuts them: the line
    metric of the first segment is lost with the second. *)
Example malformed_second_segment_loses_first :
  metrics_of_summary Samples.decimal_float Samples.malformed_second_segment
  = None.
Proof. compute_done. Qed.

Lemma malformed_token_abandons_parse_witness :
  (parse_coverage_results Samples.decimal_float
     (Samples.sample_world Samples.all_pass true
        Samples.malformed_second_segment) "." Samples.init).1 = Ret None.
Proof.
  refine (proj1 (malformed_token_abandons_parse Samples.decimal_float
            (Samples.sample_world Samples.all_pass true
               Samples.malformed_second_segment) "." Samples.init
            {| returncode := 0; stdout := Samples.malformed_second_segment;
               stderr := "" |} _ _ _)).
  - vm_compute. reflexivity.
  - vm_compute. reflexivity.
  - vm_compute. reflexivity.
Defined.

(** A full run in which everything passes returns 0. *)
Lemma run_all_tests_exit_code_witness :
  (run_all_tests Samples.decimal_float
     (Samples.sample_world Samples.all_pass true Samples.good_summary) "."
     false false Samples.init).1 = Ret 0%Z
  ∧ (run_all_tests Samples.decimal_float
       (Samples.sample_world Samples.all_pass false Samples.good_summary) "."
       false false Samples.init).1 = Ret 1%Z.
Proof.
  split.
  - destruct (run_all_tests_exit_code Samples.decimal_float "."
                (Samples.sample_world Samples.all_pass true
                   Samples.good_summary) false false Samples.init)
      as [Hres _];
      [vm_compute; reflexivity | vm_compute; reflexivity
      | intros _; vm_compute; reflexivity
      | intros _; vm_compute; reflexivity | vm_compute; reflexivity |].
    etrans; [exact Hres|]. vm_compute. reflexivity.
  - destruct (run_all_tests_exit_code Samples.decimal_float "."
                (Samples.sample_world Samples.all_pass false
                   Samples.good_summary) false false Samples.init)
      as [_ Hfail];
      [vm_compute; reflexivity | vm_compute; reflexivity
      | intros _; vm_compute; reflexivity
      | intros _; vm_compute; reflexivity | vm_compute; reflexivity |].
    apply Hfail. vm_compute. reflexivity.
Defined.

(** A failing unit stage alone gives 1, and every later step still runs. *)
Example unit_failure_alone :
  (run_all_tests Samples.decimal_float
     (Samples.sample_world Samples.unit_fails true Samples.good_summary) "."
     false false Samples.init).1 = Ret 1%Z
  ∧ Exec date_command
      ∈ trace (run_all_tests Samples.decimal_float
                 (Samples.sample_world Samples.unit_fails true
                    Samples.good_summary) "." false false Samples.init).2.
Proof. compute_done. Qed.

(** C6 at a world without pio.exe: [subprocess.run] raises
    [FileNotFoundError], the handler of [run_unit_tests] is for
    [CalledProcessError] and lets it through, and [run_all_tests] ends
    with the exception after the first command: no later stage is called,
    no report is written, no exit code is returned. *)
Theorem missing_pio_aborts_run :
  run_all_tests Samples.decimal_float
    (Samples.sample_world Samples.no_pio true Samples.good_summary) "."
    false false Samples.init
  = (Raise FileNotFoundError,
     {| heap := ∅;
        trace := [ MkDir "./coverage";
                   Exec (pio_command "test-coverage") ] |}).
Proof.
  apply (run_all_tests_missing_unit Samples.decimal_float "."). reflexivity.
Qed.

(** The sibling that does catch it: a missing gcov makes
    [generate_coverage_report] return False. *)
Example missing_gcov_is_caught :
  (generate_coverage_report
     (override (Samples.sample_world Samples.all_pass true "")
        (gcov_command {| parent := "./.pio/build/test-coverage/src";
                         stem := "main"; suffix := ".gcno" |}) Missing)
     "." Samples.init).1 = Ret false.
Proof. compute_done. Qed.

(** Where the no-NaN premise of C1 is needed: NaN is neither below a
    threshold nor at least it, so its row says FAIL and the result stays
    true. *)
Example nan_row_fails_result_passes :
  validate_coverage_thresholds (Some 1%positive)
    (Samples.with_dict
       (<["line_coverage" := S754_nan]>
        (<["function_coverage" := PyFloat.of_Z 100]>
        (<["branch_coverage" := PyFloat.of_Z 100]> ∅))))
  = (Ret true,
     {| heap := {[ 1%positive :=
                   <["line_coverage" := S754_nan]>
                   (<["function_coverage" := PyFloat.of_Z 100]>
                   (<["branch_coverage" := PyFloat.of_Z 100]> ∅)) ]};
        trace :=
          [ PrintCoverageRow "line_coverage" S754_nan f85 "FAIL";
            PrintCoverageRow "function_coverage" (PyFloat.of_Z 100) f95 "PASS";
            PrintCoverageRow "branch_coverage" (PyFloat.of_Z 100) f80 "PASS" ]
     |}).
Proof. compute_done. Qed.

(** ** More on the phase tracker and the integration script *)

Section TrackerMore.

Import Wokwi Integration.

Implicit Types (line phase : string) (phases : gmap string bool)
  (items : list (string * list string)).

Lemma step_phase_lookup line phase ps c phases :
  phases !! phase = Some c →
  step_phase line phase ps c phases !! phase = Some (c || triggered line ps).
Proof.
  intros Hp. unfold step_phase. destruct c; simpl; [done|].
  rewrite scan_patterns_spec. destruct (triggered line ps); [|done].
  by rewrite lookup_insert_eq.
Qed.

Lemma step_phase_lookup_ne line phase ps c phases q :
  q ≠ phase → step_phase line phase ps c phases !! q = phases !! q.
Proof.
  intros Hne. unfold step_phase. destruct c; simpl; [done|].
  rewrite scan_patterns_spec. destruct (triggered line ps); [|done].
  by rewrite lookup_insert_ne.
Qed.

(** A phase that is not in the table is not touched. *)
Lemma update_loop_other line items phases q :
  q ∉ items.*1 → (update_loop line items phases).2 !! q = phases !! q.
Proof.
  revert phases. induction items as [|[phase ps] items IH]; intros phases Hq;
    simpl; [done|].
  apply not_elem_of_cons in Hq as [Hne Hq].
  destruct (phases !! phase) as [c|] eqn:Hp; simpl; [|done].
  rewrite IH by done. by apply step_phase_lookup_ne.
Qed.

(** With every phase of the table in the dict the loop ends normally... *)
Lemma update_loop_ret line items phases :
  (∀ phase, phase ∈ items.*1 → is_Some (phases !! phase)) →
  (update_loop line items phases).1 = Ret tt.
Proof.
  revert phases. induction items as [|[phase ps] items IH]; intros phases Hall;
    simpl; [done|].
  destruct (Hall phase) as [c Hp]; [by left|]. rewrite Hp.
  apply IH. intros q Hq.
  destruct (step_phase line phase ps c phases !! q) as [b|] eqn:Hs;
    [by eexists|].
  apply (step_phase_None _ _ _ _ _ _ Hp) in Hs.
  destruct (Hall q) as [b Hb]; [by right|]. congruence.
Qed.

(** ... and each flag becomes its disjunction with "a trigger of the phase
    occurs in the line". *)
Lemma update_loop_lookup line items phases phase ps b :
  NoDup items.*1 →
  (∀ q, q ∈ items.*1 → is_Some (phases !! q)) →
  (phase, ps) ∈ items → phases !! phase = Some b →
  (update_loop line items phases).2 !! phase = Some (b || triggered line ps).
Proof.
  revert phases. induction items as [|[p0 ps0] items IH];
    intros phases Hnd Hall Hin Hb; [by apply elem_of_nil in Hin|].
  simpl in Hnd. apply NoDup_cons in Hnd as [Hfresh Hnd].
  destruct (Hall p0) as [c Hp]; [by left|].
  rewrite (update_loop_cons _ _ _ _ _ c Hp).
  apply elem_of_cons in Hin as [[= -> ->]|Hin].
  - rewrite update_loop_other by done.
    assert (c = b) as -> by congruence. by apply step_phase_lookup.
  - assert (phase ≠ p0) as Hne.
    { intros ->. apply Hfresh. apply list_elem_of_fmap. by exists (p0, ps). }
    apply IH; [done| |done|].
    + intros q Hq.
      destruct (step_phase line p0 ps0 c phases !! q) as [b'|] eqn:Hs;
        [by eexists|].
      apply (step_phase_None _ _ _ _ _ _ Hp) in Hs.
      destruct (Hall q) as [b' Hb']; [by right|]. congruence.
    + by rewrite step_phase_lookup_ne.
Qed.

Lemma patterns_NoDup : NoDup patterns.*1.
Proof. compute_done. Qed.

Lemma test_phases_tracks_all : tracks_all test_phases.
Proof.
  intros phase Hin. apply list_elem_of_fmap in Hin as ([p ps] & -> & Hin).
  repeat (apply elem_of_cons in Hin as [[= -> ->]|Hin]; [compute_done|]).
  by apply elem_of_nil in Hin.
Qed.

Lemma update_tracks_all line phases :
  tracks_all phases → tracks_all (update_test_phases line phases).2.
Proof.
  intros Hall phase Hin. destruct (Hall phase Hin) as [b Hb].
  destruct ((update_test_phases line phases).2 !! phase) as [b'|] eqn:Hs;
    [by eexists|].
  apply update_loop_None in Hs. congruence.
Qed.

Lemma monitor_tracked lines phases :
  tracks_all phases →
  (monitor lines phases).1 = Ret tt
  ∧ tracks_all (monitor lines phases).2
  ∧ ∀ phase ps b,
      (phase, ps) ∈ patterns → phases !! phase = Some b →
      (monitor lines phases).2 !! phase
        = Some (b || existsb (λ line, triggered line ps) lines).
Proof.
  revert phases. induction lines as [|line lines IH]; intros phases Hall.
  - simpl. split; [done|split; [done|]]. intros phase ps b _ Hb.
    by rewrite orb_false_r.
  - cbn [monitor existsb].
    pose proof (update_loop_ret line patterns phases Hall) as Hret.
    pose proof (update_tracks_all line phases Hall) as Hall'.
    pose proof (update_loop_lookup line patterns phases) as Hlook.
    unfold update_test_phases in *.
    destruct (update_loop line patterns phases) as [o phases'].
    cbn [fst snd] in *. subst o.
    destruct (IH phases' Hall') as (Hres & Hkeys & Hflags).
    split; [done|split; [done|]]. intros phase ps b Hin Hb.
    rewrite (Hflags phase ps (b || triggered line ps) Hin).
    + by rewrite orb_assoc.
    + by apply Hlook; [apply patterns_NoDup|..].
Qed.

Lemma monitor_None lines phases q :
  (monitor lines phases).2 !! q = None ↔ phases !! q = None.
Proof.
  revert phases. induction lines as [|line lines IH]; intros phases;
    simpl; [done|].
  pose proof (update_loop_None line patterns phases q) as Hstep.
  unfold update_test_phases.
  destruct (update_loop line patterns phases) as [[[]|e] phases'];
    cbn [fst snd] in *; [by rewrite IH|done].
Qed.

(** How the loop can end: normally, or with the [KeyError] of a phase of
    the table that the dict lacks. *)
Lemma update_loop_outcome line items phases :
  (update_loop line items phases).1 = Ret tt
  ∨ ∃ k, (update_loop line items phases).1 = Raise (KeyError k)
         ∧ k ∈ items.*1 ∧ phases !! k = None.
Proof.
  revert phases. induction items as [|[phase ps] items IH]; intros phases;
    simpl; [by left|].
  destruct (phases !! phase) as [c|] eqn:Hp; simpl.
  - destruct (IH (step_phase line phase ps c phases))
      as [Hret|(k & Hk & Hin & Hnone)]; [by left|right].
    exists k. split; [done|split; [by right|]].
    by apply (step_phase_None _ _ _ _ _ _ Hp) in Hnone.
  - right. exists phase. split; [done|split; [by left|done]].
Qed.

Lemma monitor_total_on_test_phases_aux lines :
  (monitor lines test_phases).1 = Ret tt
  ∧ dom (monitor lines test_phases).2 = dom test_phases.
Proof.
  split; [apply monitor_tracked, test_phases_tracks_all|].
  apply set_eq. intros q. rewrite !elem_of_dom, <-!not_eq_None_Some.
  by rewrite monitor_None.
Qed.

(** X1: the phase tracker never adds or removes a phase, and on the dict
    that [run_wokwi_test] creates it never raises: for every stream of
    lines the monitoring loop ends normally with the same five keys. *)
Theorem monitor_total_on_test_phases lines :
  (monitor lines test_phases).1 = Ret tt
  ∧ dom (monitor lines test_phases).2 = dom test_phases
  ∧ ∀ phases line, dom (update_test_phases line phases).2 = dom phases.
Proof.
  split; [apply monitor_tracked, test_phases_tracks_all|split].
  - apply set_eq. intros q. rewrite !elem_of_dom, <-!not_eq_None_Some.
    by rewrite monitor_None.
  - intros phases line. apply set_eq. intros q.
    rewrite !elem_of_dom, <-!not_eq_None_Some.
    unfold update_test_phases. by rewrite update_loop_None.
Qed.

(** X2: [update_test_phases] ends normally exactly on the dicts that have
    every phase of the table; otherwise it raises [KeyError] for a phase of
    the table that the dict lacks. *)
Theorem update_raises_iff_phase_missing line phases :
  ((update_test_phases line phases).1 = Ret tt ↔ tracks_all phases)
  ∧ ∀ e, (update_test_phases line phases).1 = Raise e →
         ∃ k, e = KeyError k ∧ k ∈ patterns.*1 ∧ phases !! k = None.
Proof.
  unfold update_test_phases. split; [split|].
  - intros Hret phase Hin.
    destruct (phases !! phase) as [b|] eqn:Hp; [by eexists|]. exfalso.
    apply list_elem_of_fmap in Hin as ([p ps] & -> & Hin). simpl in Hp.
    clear -Hret Hin Hp. revert phases Hret Hp.
    induction patterns as [|[p0 ps0] items IH]; intros phases Hret Hp;
      [by apply elem_of_nil in Hin|].
    simpl in Hret. destruct (phases !! p0) as [c|] eqn:Hp0; [|done].
    apply elem_of_cons in Hin as [[= -> ->]|Hin]; [congruence|].
    apply (IH Hin (step_phase line p0 ps0 c phases)); [done|].
    by apply (step_phase_None _ _ _ _ _ _ Hp0).
  - apply update_loop_ret.
  - intros e He.
    destruct (update_loop_outcome line patterns phases)
      as [Hret|(k & Hk & Hin & Hnone)]; [congruence|].
    exists k. split; [congruence|done].
Qed.

(** X3: after any stream of lines fed to the dict of [run_wokwi_test], a
    phase is complete exactly when some line of the stream contained one
    of its triggers (so the order of the lines does not matter). *)
Theorem phase_complete_iff_triggered lines phase ps :
  (phase, ps) ∈ patterns →
  (monitor lines test_phases).2 !! phase
    = Some (existsb (λ line, triggered line ps) lines).
Proof.
  intros Hin.
  destruct (monitor_tracked lines test_phases test_phases_tracks_all)
    as (_ & _ & Hflags).
  rewrite (Hflags phase ps false Hin); [done|].
  repeat (apply elem_of_cons in Hin as [[= -> ->]|Hin]; [compute_done|]).
  by apply elem_of_nil in Hin.
Qed.

Lemma completed_count_size phases :
  completed_count phases = size (completed phases).
Proof.
  unfold completed_count, completed. rewrite size_dom.
  induction phases as [|k b phases Hk IH] using map_ind.
  - by rewrite map_fold_empty, map_filter_empty, map_size_empty.
  - rewrite map_fold_insert_L; [|intros; lia|done]. rewrite IH.
    destruct b.
    + rewrite map_filter_insert_True by done.
      rewrite map_size_insert_None; [done|].
      apply map_lookup_filter_None. by left.
    + rewrite map_filter_insert_not'; [done|by intros [=]|].
      intros y Hy. congruence.
Qed.

(** X4: the progress that [print_test_summary] reports never exceeds the
    number of phases, never decreases as more lines are fed, and is out of
    five on the dict of [run_wokwi_test]. *)
Theorem progress_bounded_and_monotonic (lines : list string) (i : nat) phases :
  ((print_test_summary phases).1 ≤ (print_test_summary phases).2)%nat
  ∧ ((print_test_summary (monitor (take i lines) phases).2).1
      ≤ (print_test_summary (monitor (take (S i) lines) phases).2).1)%nat
  ∧ (print_test_summary (monitor lines test_phases).2).2 = 5%nat.
Proof.
  unfold print_test_summary, total_count. cbn [fst snd].
  rewrite !completed_count_size. split; [|split].
  - rewrite <-(size_dom (D := gset string) phases).
    apply subseteq_size. intros p. rewrite elem_of_completed, elem_of_dom.
    intros ->. by eexists.
  - apply subseteq_size. destruct (take_S_app lines i) as [l2 ->].
    apply monitor_app_completed.
  - rewrite <-(size_dom (D := gset string)).
    destruct (monitor_total_on_test_phases_aux lines) as [_ ->].
    compute_done.
Qed.

End TrackerMore.

(** ** The integration script *)

Section IntegrationScript.

Import Wokwi Integration.

Variable w : world.

Lemma find_in_sound paths path :
  find_in w paths = Ret path → path ∈ paths ∧ accepted w path = true.
Proof.
  induction paths as [|p paths IH]; simpl; [done|]. unfold accepted.
  destruct (which w p) as [r|] eqn:Hw; [|done].
  destruct (Coverage.returncode r =? 0)%Z eqn:Hrc.
  - intros [= ->]. rewrite Hw, Hrc. split; [by left|done].
  - destruct (isfile w p) eqn:Hf.
    + intros [= ->]. rewrite Hw, Hrc, Hf. split; [by left|done].
    + intros Hfind. destruct (IH Hfind) as [Hin Hacc].
      split; [by right|done].
Qed.

Lemma find_in_first paths :
  (∀ path, path ∈ paths → which w path ≠ Coverage.Missing) →
  find_in w paths
  = match List.find (accepted w) paths with
    | Some path => Ret path
    | None => Raise FileNotFoundError
    end.
Proof.
  induction paths as [|p paths IH]; intros Hall; simpl; [done|].
  unfold accepted at 1.
  destruct (which w p) as [r|] eqn:Hw; [|by destruct (Hall p); [left|]].
  destruct (Coverage.returncode r =? 0)%Z; simpl; [done|].
  destruct (isfile w p); [done|]. apply IH. intros q Hq. apply Hall. by right.
Qed.

(** X5: [find_wokwi_cli] returns only a candidate path that passed its test
    (found by which, or a file); when which itself can be run it returns
    the first candidate that passes, in the order of the list, and raises
    [FileNotFoundError] exactly when none passes. *)
Theorem find_wokwi_cli_first_accepted :
  (∀ path, find_wokwi_cli w = Ret path →
           path ∈ common_paths w ∧ accepted w path = true)
  ∧ ((∀ path, path ∈ common_paths w → which w path ≠ Coverage.Missing) →
     find_wokwi_cli w
     = match List.find (accepted w) (common_paths w) with
       | Some path => Ret path
       | None => Raise FileNotFoundError
       end).
Proof.
  split; [intros path; apply find_in_sound|apply find_in_first].
Qed.

Lemma run_wokwi_test_run wokwi_cli :
  run_wokwi_test w wokwi_cli
  = match wokwi w [wokwi_cli; "--timeout"; "300000"] with
    | Started lines returncode =>
        ((returncode =? 0)%Z,
         Some (print_test_summary (monitor lines test_phases).2))
    | NotStarted => (false, None)
    end.
Proof.
  unfold run_wokwi_test.
  destruct (wokwi w [wokwi_cli; "--timeout"; "300000"]) as [lines rc|];
    [|done].
  destruct (monitor_total_on_test_phases_aux lines) as [Hret _].
  by destruct (monitor lines test_phases) as [[[]|e] phases].
Qed.

(** X6: the verdict of [run_wokwi_test] is the exit status of the simulator
    alone: True exactly when the process started and exited with 0,
    whatever it printed and whichever phases completed; and whenever the
    process started a summary out of five phases is printed. *)
Theorem run_wokwi_test_verdict wokwi_cli :
  (run_wokwi_test w wokwi_cli).1
  = match wokwi w [wokwi_cli; "--timeout"; "300000"] with
    | Started _ returncode => (returncode =? 0)%Z
    | NotStarted => false
    end
  ∧ ∀ lines returncode,
      wokwi w [wokwi_cli; "--timeout"; "300000"] = Started lines returncode →
      ∃ done, (run_wokwi_test w wokwi_cli).2 = Some (done, 5%nat)
              ∧ (done ≤ 5)%nat.
Proof.
  rewrite run_wokwi_test_run. split.
  - by destruct (wokwi w _).
  - intros lines rc ->. cbn [snd].
    exists (completed_count (monitor lines test_phases).2).
    unfold print_test_summary, total_count.
    assert (size (monitor lines test_phases).2 = 5%nat) as Hsize.
    { rewrite <-(size_dom (D := gset string)).
      destruct (monitor_total_on_test_phases_aux lines) as [_ ->].
      compute_done. }
    split; [by rewrite Hsize|]. rewrite <-Hsize, completed_count_size.
    rewrite <-(size_dom (D := gset string) (monitor lines test_phases).2).
    apply subseteq_size. intros p. rewrite elem_of_completed, elem_of_dom.
    intros ->. by eexists.
Qed.

(** X7: the script exits with 0 exactly when the simulator was found, the
    firmware was there or was built (pio exits with 0 and the file exists
    afterwards), and the simulator started and exited with 0; in every
    other case, a missing program included, it exits with 1. *)
Theorem integration_main_exit_code :
  (main w = 0%Z ↔
   ∃ wokwi_cli,
     find_wokwi_cli w = Ret wokwi_cli
     ∧ (firmware_exists w = true
        ∨ (∃ r, pio_run w = Coverage.Launched r
                ∧ Coverage.returncode r = 0%Z)
          ∧ firmware_built w = true)
     ∧ ∃ lines, wokwi w [wokwi_cli; "--timeout"; "300000"] = Started lines 0)
  ∧ (main w = 0%Z ∨ main w = 1%Z).
Proof.
  unfold main, run_full_test, build_firmware. split; [split|].
  - destruct (find_wokwi_cli w) as [cli|]; [|done]. intros Hmain.
    exists cli. split; [done|].
    assert ((run_wokwi_test w cli).1 = true →
            ∃ lines, wokwi w [cli; "--timeout"; "300000"] = Started lines 0)
      as Hrun.
    { rewrite run_wokwi_test_run.
      destruct (wokwi w _) as [lines rc|]; [|done]. cbn [fst].
      intros Hrc%Z.eqb_eq. subst rc. by exists lines. }
    destruct (firmware_exists w); simpl in Hmain.
    + split; [by left|]. apply Hrun.
      by destruct (run_wokwi_test w cli).1.
    + destruct (pio_run w) as [r|]; [|done].
      destruct (Coverage.returncode r =? 0)%Z eqn:Hrc; simpl in Hmain;
        [|done].
      destruct (firmware_built w); simpl in Hmain; [|done].
      apply Z.eqb_eq in Hrc. split; [right; eauto|].
      apply Hrun. by destruct (run_wokwi_test w cli).1.
  - intros (cli & -> & Hfw & lines & Hwokwi).
    assert ((run_wokwi_test w cli).1 = true) as Hrun.
    { by rewrite run_wokwi_test_run, Hwokwi. }
    destruct Hfw as [->|[(r & -> & Hrc) ->]]; simpl.
    + by rewrite Hrun.
    + destruct (firmware_exists w); simpl; [by rewrite Hrun|].
      rewrite Hrc. simpl. by rewrite Hrun.
  - destruct (find_wokwi_cli w) as [cli|]; [|by right].
    destruct (firmware_exists w); simpl.
    + destruct (run_wokwi_test w cli).1; auto.
    + destruct (pio_run w) as [r|]; [|by right].
      destruct (Coverage.returncode r =? 0)%Z; simpl; [|by right].
      destruct (firmware_built w); simpl; [|by right].
      destruct (run_wokwi_test w cli).1; auto.
Qed.

End IntegrationScript.

(** ** More on the coverage runner *)

Section CoverageMore.

Import Coverage.

Variable py_float : string → option spec_float.

Implicit Types (w : world) (σ : pystate) (l : loc)
  (d : gmap string spec_float) (lines : list string).

(** X8: [generate_coverage_report] never raises.  It returns True exactly
    when instrumentation files are found and gcov can be launched on each
    of them that has a .cpp file beside it; it changes no dict; and with no
    instrumentation file it returns False having run and written
    nothing. *)
Theorem generate_coverage_report_total w root σ :
  (generate_coverage_report w root σ).1 = Ret (coverage_generated w root)
  ∧ heap (generate_coverage_report w root σ).2 = heap σ
  ∧ (rglob w (build_dir root) "*.gcno" = [] →
     generate_coverage_report w root σ = (Ret false, σ)).
Proof.
  destruct (generate_coverage_report_result w root σ) as [Hres Hheap].
  split; [done|split; [done|]]. intros Hnone.
  unfold generate_coverage_report, try_except. by rewrite Hnone.
Qed.

(** X9: [parse_coverage_results] never raises.  Without the file
    coverage_filtered.info it returns None at once and does not run lcov;
    when lcov cannot be launched it returns None; otherwise what it returns
    depends on the text lcov printed only, not on its exit status. *)
Theorem parse_coverage_results_total w root σ :
  (∃ cd, (parse_coverage_results py_float w root σ).1 = Ret cd
         ∧ deref (parse_coverage_results py_float w root σ).2 <$> cd
           = lcov_metrics py_float w root)
  ∧ (path_exists w (coverage_dir root ++ "/coverage_filtered.info")%string
       = false →
     parse_coverage_results py_float w root σ = (Ret None, σ))
  ∧ (sh w (lcov_command root) = Missing →
     (parse_coverage_results py_float w root σ).1 = Ret None)
  ∧ (∀ r rc err,
       path_exists w (coverage_dir root ++ "/coverage_filtered.info")%string
         = true →
       sh w (lcov_command root) = Launched r →
       parse_coverage_results py_float
         (override w (lcov_command root)
            (Launched {| returncode := rc; stdout := stdout r;
                         stderr := err |})) root σ
       = parse_coverage_results py_float w root σ).
Proof.
  split; [apply parse_coverage_results_metrics|].
  split; [|split].
  - intros Hno. by rewrite parse_coverage_results_run, Hno.
  - intros Hsh. rewrite parse_coverage_results_run, Hsh.
    by destruct (path_exists w _).
  - intros r rc err Hex Hsh. rewrite !parse_coverage_results_run.
    change (path_exists (override w (lcov_command root) _))
      with (path_exists w).
    rewrite Hex, Hsh.
    change (sh (override w (lcov_command root) ?o) (lcov_command root))
      with (if decide (lcov_command root = lcov_command root)
            then o else sh w (lcov_command root)).
    by rewrite decide_True.
Qed.

Lemma scan_lines_dom lines d :
  dom (scan_lines py_float lines d).2
    ⊆ dom d ∪ {[ "line_coverage"; "function_coverage"; "branch_coverage" ]}.
Proof.
  revert d. induction lines as [|line lines IH]; intros d; simpl.
  { apply union_subseteq_l. }
  destruct (metric_label line) as [k|] eqn:Hk; [|apply IH].
  destruct (percent_field py_float line) as [v|e]; simpl;
    [|apply union_subseteq_l].
  assert (k ∈ ({[ "line_coverage"; "function_coverage"; "branch_coverage" ]}
               : gset string)) as Hin.
  { unfold metric_label in Hk.
    repeat (destruct (PyStr.contains _ line);
            [injection Hk as <-;
             rewrite !elem_of_union, !elem_of_singleton; tauto|]).
    discriminate. }
  intros x Hx. apply IH in Hx. rewrite dom_insert_L in Hx.
  rewrite !elem_of_union in Hx. rewrite elem_of_singleton in Hx.
  apply elem_of_union. destruct Hx as [[->|Hx]|Hx]; auto.
  right. rewrite !elem_of_union. tauto.
Qed.

(** X10: the dict the parser returns has no key but "line_coverage",
    "function_coverage" and "branch_coverage". *)
Theorem parse_keys_canonical w root σ l :
  (parse_coverage_results py_float w root σ).1 = Ret (Some l) →
  dom (deref (parse_coverage_results py_float w root σ).2 l)
    ⊆ {[ "line_coverage"; "function_coverage"; "branch_coverage" ]}.
Proof.
  rewrite parse_coverage_results_run.
  destruct (path_exists w _); [|done].
  destruct (sh w (lcov_command root)) as [r|]; [|done].
  unfold metrics_of_summary.
  pose proof (scan_lines_dom (PyStr.split PyStr.backslash_n (stdout r)) ∅)
    as Hdom.
  destruct (scan_lines py_float _ ∅) as [[[]|e] d]; cbn [fst snd] in *;
    [|done].
  intros [= <-]. rewrite deref_set_dict.
  intros x Hx. apply Hdom in Hx. rewrite dom_empty_L in Hx.
  apply elem_of_union in Hx as [Hx|Hx]; [|done].
  by apply elem_of_empty in Hx.
Qed.

Lemma scan_lines_readable lines d :
  existsb (unreadable py_float) lines = false →
  (scan_lines py_float lines d).1 = Ret tt.
Proof.
  revert d. induction lines as [|line lines IH]; intros d; [done|].
  cbn [existsb scan_lines]. unfold unreadable.
  destruct (metric_label line) as [k|]; [|apply IH].
  destruct (percent_field py_float line) as [v|e]; [apply IH|done].
Qed.

Lemma scan_lines_app (before after : list string) d :
  (scan_lines py_float before d).1 = Ret tt →
  scan_lines py_float (before ++ after) d
  = scan_lines py_float after (scan_lines py_float before d).2.
Proof.
  revert d. induction before as [|line before IH]; intros d; [done|].
  cbn [app scan_lines].
  destruct (metric_label line) as [k|]; [|apply IH].
  destruct (percent_field py_float line) as [v|e]; [apply IH|done].
Qed.

Lemma scan_lines_keeps lines d k :
  (∀ line, line ∈ lines → metric_label line ≠ Some k) →
  (scan_lines py_float lines d).2 !! k = d !! k.
Proof.
  revert d. induction lines as [|line lines IH]; intros d Hother; [done|].
  cbn [scan_lines].
  assert (∀ line', line' ∈ lines → metric_label line' ≠ Some k) as Hrest.
  { intros line' Hin. apply Hother. by right. }
  destruct (metric_label line) as [k'|] eqn:Hk; [|by apply IH].
  destruct (percent_field py_float line) as [v|e]; [|done].
  rewrite IH by done. apply lookup_insert_ne. intros ->.
  by apply (Hother line); [left|].
Qed.

(** X11: the last occurrence wins.  When every labelled segment of the
    summary can be read, the value the parser returns for a metric is the
    one of the last segment filed under it. *)
Theorem parse_last_occurrence_wins summary before line after k v σ :
  PyStr.split PyStr.backslash_n summary = before ++ line :: after →
  existsb (unreadable py_float) (before ++ after) = false →
  metric_label line = Some k →
  percent_field py_float line = Ret v →
  (∀ line', line' ∈ after → metric_label line' ≠ Some k) →
  ∃ l, (parse_summary py_float summary σ).1 = Ret l
       ∧ deref (parse_summary py_float summary σ).2 l !! k = Some v.
Proof.
  intros Hsplit Hread Hk Hv Hlast.
  rewrite existsb_app in Hread. apply orb_false_elim in Hread as [Hb Ha].
  rewrite parse_summary_run, Hsplit.
  rewrite scan_lines_app by by apply scan_lines_readable.
  set (d1 := (scan_lines py_float before ∅).2).
  cbn [scan_lines]. rewrite Hk, Hv.
  rewrite (scan_lines_readable after _ Ha). cbn [fst snd].
  eexists. split; [done|]. rewrite deref_set_dict.
  rewrite scan_lines_keeps by done. apply lookup_insert_eq.
Qed.

(** X13: the validator reads the metrics of its table and nothing else: two
    non-empty dicts that agree on them give the same result and the same
    printed rows, whatever other keys they hold. *)
Theorem validate_reads_table_metrics_only table σ σ' l l' :
  deref σ l ≠ ∅ → deref σ' l' ≠ ∅ →
  (∀ mt, mt ∈ table → deref σ l !! mt.1 = deref σ' l' !! mt.1) →
  (validate_against table (Some l) σ).1
    = (validate_against table (Some l') σ').1
  ∧ emitted σ (validate_against table (Some l) σ).2
    = emitted σ' (validate_against table (Some l') σ').2.
Proof.
  intros Hne Hne' Hagree. rewrite !validate_against_run.
  rewrite !bool_decide_eq_false_2 by done. cbn [fst snd].
  rewrite (emitted_app _ _ (coverage_rows table (deref σ l))) by done.
  rewrite (emitted_app _ _ (coverage_rows table (deref σ' l'))) by done.
  assert (∀ mt, mt ∈ table →
            actual_of (deref σ l) mt.1 = actual_of (deref σ' l') mt.1)
    as Hact.
  { intros mt Hin. unfold actual_of. by rewrite Hagree. }
  clear Hagree. induction table as [|mt table IH]; [done|].
  cbn [forallb coverage_rows map].
  rewrite (Hact mt) by by left.
  destruct IH as [IH1 IH2]; [intros mt' Hin; apply Hact; by right|].
  injection IH1 as IH1. unfold coverage_rows in IH2.
  by rewrite IH1, IH2.
Qed.

Lemma or_empty_dict_run cd σ :
  ∃ l' σ1, or_empty_dict cd σ = (Ret l', σ1)
           ∧ trace σ1 = trace σ
           ∧ deref σ1 l' = default ∅ (deref σ <$> cd).
Proof.
  assert (∃ l' σ1, new_dict σ = (Ret l', σ1) ∧ trace σ1 = trace σ
                   ∧ deref σ1 l' = ∅) as (l0 & σ0 & Hnew & Htr0 & Hd0).
  { eexists _, _. split; [done|split; [done|]].
    unfold deref. simpl. by rewrite lookup_insert_eq. }
  destruct cd as [l|]; simpl.
  - rewrite run_bind. unfold dict_items. case_bool_decide as Hempty.
    + exists l0, σ0. by rewrite Hempty.
    + by exists l, σ.
  - by exists l0, σ0.
Qed.

Lemma generate_test_report_run w root u i cd p m σ dr :
  sh w date_command = Launched dr →
  ∃ file r,
    trace (generate_test_report w root u i cd p m σ).2
      = trace σ ++ [Exec date_command; WriteTestReport file r]
    ∧ (∃ rep, (generate_test_report w root u i cd p m σ).1 = Ret rep)
    ∧ unit_tests r = pass_fail u ∧ integration_tests r = pass_fail i
    ∧ performance_tests r = pass_fail p ∧ memory_tests r = pass_fail m
    ∧ coverage r = default ∅ (deref σ <$> cd)
    ∧ timestamp r = PyStr.strip (stdout dr).
Proof.
  intros Hdate. unfold generate_test_report. rewrite run_bind.
  destruct (or_empty_dict_run cd σ) as (l' & σ1 & -> & Htr & Hd).
  rewrite run_bind, subprocess_run_run. fold date_command. rewrite Hdate.
  rewrite run_bind. unfold dict_items at 1. rewrite run_bind. unfold emit.
  rewrite run_ret. cbn [fst snd trace add_event].
  eexists _, _. split.
  { rewrite Htr, <-app_assoc. reflexivity. }
  split; [by eexists|]. cbn. repeat split; try done.
Qed.

(** The events of a full run, and the report it ends with, when the
    programs can be launched. *)
Lemma run_all_tests_shape w root sp sm σ :
  launches w (pio_command "test-coverage") = true →
  launches w (pio_command "test-integration") = true →
  (sp = false → launches w (pio_command "test-performance") = true) →
  (sm = false → launches w (pio_command "test-memory") = true) →
  launches w date_command = true →
  ∃ mid file r,
    emitted σ (run_all_tests py_float w root sp sm σ).2
    = [ MkDir (coverage_dir root);
        Exec (pio_command "test-coverage");
        Exec (pio_command "test-integration") ]
      ++ (if sp then [] else [Exec (pio_command "test-performance")])
      ++ (if sm then [] else [Exec (pio_command "test-memory")])
      ++ mid
      ++ [Exec date_command; WriteTestReport file r]
    ∧ Forall (CoverageMain.coverage_step_event root) mid
    ∧ unit_tests r = pass_fail (stage_passed w "test-coverage")
    ∧ integration_tests r = pass_fail (stage_passed w "test-integration")
    ∧ performance_tests r
      = pass_fail (sp || stage_passed w "test-performance")
    ∧ memory_tests r = pass_fail (sm || stage_passed w "test-memory")
    ∧ coverage r
      = default ∅ (if coverage_generated w root
                   then lcov_metrics py_float w root else None).
Proof.
  unfold launches, stage_passed. intros Hunit Hint Hperf Hmem Hdate.
  unfold run_all_tests.
  rewrite run_bind, setup_coverage_environment_run.
  rewrite run_bind, run_unit_tests_run.
  destruct (sh w (pio_command "test-coverage")) as [ru|]; [|discriminate].
  rewrite run_bind, run_integration_tests_run.
  destruct (sh w (pio_command "test-integration")) as [ri|]; [|discriminate].
  set (σ2 := add_event _ _).
  assert (trace σ2 = trace σ ++
            [ MkDir (coverage_dir root); Exec (pio_command "test-coverage");
              Exec (pio_command "test-integration") ]) as Htr2.
  { unfold σ2, add_event. simpl. by rewrite <-!app_assoc. }
  clearbody σ2.
  rewrite run_bind.
  assert (∃ σ3,
    (if negb sp then run_performance_tests w else mret true) σ2
    = (Ret (sp || match sh w (pio_command "test-performance") with
                  | Launched r => (returncode r =? 0)%Z
                  | Missing => false
                  end), σ3)
    ∧ trace σ3 = trace σ2 ++
        (if sp then [] else [Exec (pio_command "test-performance")]))
    as (σ3 & -> & Htr3).
  { destruct sp; simpl.
    - eexists. split; [done|]. by rewrite app_nil_r.
    - rewrite run_performance_tests_run. specialize (Hperf eq_refl).
      destruct (sh w (pio_command "test-performance")); [|discriminate].
      by eexists. }
  rewrite run_bind.
  assert (∃ σ4,
    (if negb sm then run_memory_tests w else mret true) σ3
    = (Ret (sm || match sh w (pio_command "test-memory") with
                  | Launched r => (returncode r =? 0)%Z
                  | Missing => false
                  end), σ4)
    ∧ trace σ4 = trace σ3 ++
        (if sm then [] else [Exec (pio_command "test-memory")]))
    as (σ4 & -> & Htr4).
  { destruct sm; simpl.
    - eexists. split; [done|]. by rewrite app_nil_r.
    - rewrite run_memory_tests_run. specialize (Hmem eq_refl).
      destruct (sh w (pio_command "test-memory")); [|discriminate].
      by eexists. }
  rewrite run_bind.
  destruct (generate_coverage_report_result w root σ4) as [Hgen _].
  destruct (emits_generate_coverage_report
              (Ev := CoverageMain.coverage_step_event root) w root)
    with (σ := σ4) as (evs5 & Htr5 & Hev5 & _).
  { intros f. left. by exists f. }
  { done. }
  destruct (generate_coverage_report w root σ4) as [og σ5].
  cbn [fst snd] in *. subst og.
  rewrite run_bind.
  assert (∃ cd σ6 evs6,
    (if coverage_generated w root
     then parse_coverage_results py_float w root else mret None) σ5
    = (Ret cd, σ6)
    ∧ deref σ6 <$> cd
      = (if coverage_generated w root
         then lcov_metrics py_float w root else None)
    ∧ trace σ6 = trace σ5 ++ evs6
    ∧ Forall (CoverageMain.coverage_step_event root) evs6)
    as (cd & σ6 & evs6 & -> & Hcd & Htr6 & Hev6).
  { destruct (coverage_generated w root).
    - destruct (parse_coverage_results_metrics py_float w root σ5)
        as (cd & Hres & Hm).
      destruct (emits_parse_coverage_results
                  (Ev := CoverageMain.coverage_step_event root)
                  py_float w root)
        with (σ := σ5) as (evs6 & Htr6 & Hev6 & _); [by right|].
      destruct (parse_coverage_results py_float w root σ5) as [o σ6].
      cbn [fst snd] in *. subst o. by exists cd, σ6, evs6.
    - exists None, σ5, []. by rewrite app_nil_r. }
  rewrite run_bind, validate_coverage_thresholds_result.
  destruct (emits_validate_coverage_thresholds
              (Ev := CoverageMain.coverage_step_event root) cd)
    with (σ := σ6) as (evs7 & Htr7 & Hev7 & _); [done|].
  pose proof (validate_against_heap thresholds cd σ6) as Hheap7.
  fold (validate_coverage_thresholds cd) in Hheap7.
  set (σ7 := (validate_coverage_thresholds cd σ6).2) in *. clearbody σ7.
  assert (deref σ7 <$> cd = deref σ6 <$> cd) as Hd7.
  { destruct cd as [l|]; [|done]. simpl. unfold deref. by rewrite Hheap7. }
  rewrite run_bind.
  destruct (sh w date_command) as [dr|] eqn:Hd; [|discriminate].
  match goal with
  | |- context [generate_test_report w root ?u ?i cd ?p ?m σ7] =>
      destruct (generate_test_report_run w root u i cd p m σ7 dr Hd)
        as (file & r & Htr8 & [rep Hrep] & Hu & Hi & Hp & Hm & Hcov & _);
      destruct (generate_test_report w root u i cd p m σ7) as [o σ8]
  end.
  cbn [fst snd] in *. subst o. rewrite run_ret. cbn [snd].
  exists (evs5 ++ evs6 ++ evs7), file, r. split.
  { apply emitted_app.
    rewrite Htr8, Htr7, Htr6, Htr5, Htr4, Htr3, Htr2.
    by rewrite <-!app_assoc. }
  split; [by rewrite !Forall_app|].
  rewrite Hu, Hi, Hp, Hm, Hcov, Hd7, Hcd. done.
Qed.

(** X15: the shape of a full run.  When the programs can be launched, the
    run creates the coverage directory, calls the unit and the integration
    command, then the performance and the memory command unless skipped,
    whatever the earlier ones returned (a failing stage stops nothing);
    then come the coverage steps; the date command and one report, written
    last, end the run.  The report records the four stage results, a
    skipped stage as PASS, and the parsed metrics, the empty dict when
    there are none. *)
Theorem run_all_tests_trace_shape w root sp sm σ :
  launches w (pio_command "test-coverage") = true →
  launches w (pio_command "test-integration") = true →
  (sp = false → launches w (pio_command "test-performance") = true) →
  (sm = false → launches w (pio_command "test-memory") = true) →
  launches w date_command = true →
  ∃ mid file r,
    emitted σ (run_all_tests py_float w root sp sm σ).2
    = [ MkDir (coverage_dir root);
        Exec (pio_command "test-coverage");
        Exec (pio_command "test-integration") ]
      ++ (if sp then [] else [Exec (pio_command "test-performance")])
      ++ (if sm then [] else [Exec (pio_command "test-memory")])
      ++ mid
      ++ [Exec date_command; WriteTestReport file r]
    ∧ Forall (CoverageMain.coverage_step_event root) mid
    ∧ unit_tests r = pass_fail (stage_passed w "test-coverage")
    ∧ integration_tests r = pass_fail (stage_passed w "test-integration")
    ∧ performance_tests r
      = pass_fail (sp || stage_passed w "test-performance")
    ∧ memory_tests r = pass_fail (sm || stage_passed w "test-memory")
    ∧ coverage r
      = default ∅ (if coverage_generated w root
                   then lcov_metrics py_float w root else None).
Proof. apply run_all_tests_shape. Qed.

End CoverageMore.

(** ** The command lines *)

Section CommandLines.

Import Coverage CoverageMain.

Lemma single_stage_run w env σ :
  (try_except
     (result ← subprocess_run w (pio_command env);
      mret (returncode result =? 0)%Z)
     is_CalledProcessError (λ _, mret false)
   ≫= λ success, mret (exit_status success)) σ
  = (match sh w (pio_command env) with
     | Launched r => Ret (if (returncode r =? 0)%Z then 0%Z else 1%Z)
     | Missing => Raise FileNotFoundError
     end, add_event σ (Exec (pio_command env))).
Proof.
  rewrite run_bind, run_stage_run. by destruct (sh w (pio_command env)).
Qed.

(** X17: the modes of the command line.  With a single-stage flag the
    script runs the command of that stage and nothing else (no directory,
    no coverage step, no report) and exits with 0 exactly when the command
    exits with 0; of several such flags the first in the order unit,
    integration, performance, memory decides; the skip flags and
    --no-coverage change nothing then.  Without such a flag it is the full
    run with the two skip flags. *)
Theorem main_modes py_float w a σ :
  (unit_only a = true →
   main py_float w a σ
   = (match sh w (pio_command "test-coverage") with
      | Launched r => Ret (if (returncode r =? 0)%Z then 0%Z else 1%Z)
      | Missing => Raise FileNotFoundError
      end, add_event σ (Exec (pio_command "test-coverage"))))
  ∧ (unit_only a = false → integration_only a = true →
     main py_float w a σ
     = (match sh w (pio_command "test-integration") with
        | Launched r => Ret (if (returncode r =? 0)%Z then 0%Z else 1%Z)
        | Missing => Raise FileNotFoundError
        end, add_event σ (Exec (pio_command "test-integration"))))
  ∧ (unit_only a = false → integration_only a = false →
     performance_only a = true →
     main py_float w a σ
     = (match sh w (pio_command "test-performance") with
        | Launched r => Ret (if (returncode r =? 0)%Z then 0%Z else 1%Z)
        | Missing => Raise FileNotFoundError
        end, add_event σ (Exec (pio_command "test-performance"))))
  ∧ (unit_only a = false → integration_only a = false →
     performance_only a = false → memory_only a = true →
     main py_float w a σ
     = (match sh w (pio_command "test-memory") with
        | Launched r => Ret (if (returncode r =? 0)%Z then 0%Z else 1%Z)
        | Missing => Raise FileNotFoundError
        end, add_event σ (Exec (pio_command "test-memory"))))
  ∧ (unit_only a = false → integration_only a = false →
     performance_only a = false → memory_only a = false →
     main py_float w a σ
     = run_all_tests py_float w (project_root a)
         (skip_performance a) (skip_memory a) σ).
Proof.
  unfold main. repeat split.
  - intros ->. apply single_stage_run.
  - intros -> ->. apply single_stage_run.
  - intros -> -> ->. apply single_stage_run.
  - intros -> -> -> ->. apply single_stage_run.
  - by intros -> -> -> ->.
Qed.

End CommandLines.

Section Quick.

Import QuickTest.

(** X18: [quick_test.py] stops at the first command that does not exit with
    0 (a timeout and any other exception count as failure, none escapes):
    it succeeds exactly when all four commands exit with 0, the commands
    it runs are an initial part of the four, and the simulation is run
    only after the two checks and the build succeeded. *)
Theorem quick_main_fail_fast (sh : shell) :
  ((main sh).1 = true
   ↔ ∀ step, step ∈ steps → sh step.1 step.2 = Exited 0)
  ∧ (main sh).2 `prefix_of` steps.*1
  ∧ (simulate_cmd ∈ (main sh).2
     ↔ run_command sh pio_check None = true
       ∧ run_command sh wokwi_check None = true
       ∧ run_command sh build_cmd (Some 120%Z) = true)
  ∧ (exit_status sh = 0%Z ↔ (main sh).1 = true).
Proof.
  assert (∀ cmd t, run_command sh cmd t = true ↔ sh cmd t = Exited 0)
    as Hrun.
  { intros cmd t. unfold run_command. destruct (sh cmd t) as [rc| |];
      [|done..]. rewrite Z.eqb_eq. split; [by intros ->|by intros [=]]. }
  split; [|split; [|split]].
  - split.
    + intros Hmain step Hin. unfold main in Hmain.
      destruct (run_command sh pio_check None) eqn:H1; [|done].
      destruct (run_command sh wokwi_check None) eqn:H2; [|done].
      destruct (run_command sh build_cmd (Some 120%Z)) eqn:H3; [|done].
      simpl in Hmain. unfold steps in Hin.
      repeat (apply elem_of_cons in Hin as [->|Hin]; [by apply Hrun|]).
      by apply elem_of_nil in Hin.
    + intros Hall. unfold main.
      rewrite !(proj2 (Hrun _ _)); [done|..];
        apply (Hall (_, _)); unfold steps;
        repeat first [by left | right].
  - unfold main.
    destruct (run_command sh pio_check None);
      [|by exists [wokwi_check; build_cmd; simulate_cmd]].
    destruct (run_command sh wokwi_check None);
      [|by exists [build_cmd; simulate_cmd]].
    destruct (run_command sh build_cmd (Some 120%Z));
      [by exists []|by exists [simulate_cmd]].
  - unfold main.
    destruct (run_command sh pio_check None);
      [|split; [intros Hin; exfalso; revert Hin; compute_done|by intros []]].
    destruct (run_command sh wokwi_check None);
      [|split; [intros Hin; exfalso; revert Hin; compute_done
               |by intros (_ & ? & _)]].
    destruct (run_command sh build_cmd (Some 120%Z));
      [|split; [intros Hin; exfalso; revert Hin; compute_done
               |by intros (_ & _ & ?)]].
    split; [done|]. intros _. simpl. compute_done.
  - unfold exit_status. by destruct (main sh).1.
Qed.

End Quick.

(** ** The order of floats and the validator *)

Section FloatOrder.

Import Coverage.

(** [a' >= a] and [a' < t] give [a < t]. *)
Lemma lt_of_ge_lt a' a t :
  PyFloat.ge a' a = true → PyFloat.lt a' t = true → PyFloat.lt a t = true.
Proof.
  unfold PyFloat.ge, PyFloat.lt.
  destruct a' as [s'|s'| |s' m' e'], a as [s|s| |s m e],
    t as [st|st| |st mt et]; simpl; try done;
    try (destruct s'); try (destruct s); try (destruct st); simpl;
    try done;
    repeat match goal with
           | |- context [(?x ?= ?y)%Z] =>
               destruct (Z.compare_spec x y); simpl; try done
           | |- context [PosDef.Pos.compare_cont Eq ?x ?y] =>
               change (PosDef.Pos.compare_cont Eq x y)
                 with (x ?= y)%positive;
               destruct (Pos.compare_spec x y); simpl; try done
           end;
    subst; try done; try lia.
Qed.

(** X14: a better measurement never hurts.  If a dict passes over a table
    and a second, non-empty dict has for every metric of the table a value
    at least as large (0.0 standing for a missing one), the second dict
    passes too. *)
Theorem validate_monotone table σ σ' l l' :
  deref σ' l' ≠ ∅ →
  (∀ mt, mt ∈ table →
     PyFloat.ge (actual_of (deref σ' l') mt.1) (actual_of (deref σ l) mt.1)
       = true) →
  (validate_against table (Some l) σ).1 = Ret true →
  (validate_against table (Some l') σ').1 = Ret true.
Proof.
  intros Hne Hge. rewrite !validate_against_run.
  rewrite (bool_decide_eq_false_2 _ Hne).
  destruct (bool_decide (deref σ l = ∅)); [done|]. cbn [fst].
  intros [= Hpass]. f_equal.
  apply forallb_forall. intros mt Hin.
  rewrite forallb_forall in Hpass. specialize (Hpass mt Hin).
  apply list_elem_of_In in Hin. specialize (Hge mt Hin).
  destruct (PyFloat.lt (actual_of (deref σ' l') mt.1) mt.2) eqn:Hlt; [|done].
  rewrite (lt_of_ge_lt _ _ _ Hge Hlt) in Hpass. done.
Qed.

End FloatOrder.

(** ** Summaries that are not cut, and missing stage programs *)

Section Unsplit.

Import Coverage.

Variable py_float : string → option spec_float.

Lemma append_cons_assoc (cur : string) c s :
  ((cur ++ String c EmptyString) ++ s)%string = (cur ++ String c s)%string.
Proof.
  induction cur as [|a cur IH]; [reflexivity|].
  change (String a ((cur ++ String c EmptyString) ++ s)%string
          = String a (cur ++ String c s)%string).
  by f_equal.
Qed.

Lemma append_empty_r (s : string) : (s ++ "")%string = s.
Proof.
  induction s as [|a s IH]; [reflexivity|].
  change (String a (s ++ "")%string = String a s). by f_equal.
Qed.

(** Without an occurrence of the separator nothing is cut. *)
Lemma split_aux_no_sep sep s cur :
  PyStr.contains sep s = false →
  PyStr.split_aux sep s cur 0 = [(cur ++ s)%string].
Proof.
  revert cur. induction s as [|c s IH]; intros cur Hno.
  - simpl. by rewrite append_empty_r.
  - cbn [PyStr.contains] in Hno. cbn [PyStr.split_aux].
    destruct (PyStr.startswith sep (String c s)); [done|].
    rewrite IH by done. by rewrite append_cons_assoc.
Qed.

(** X12: a summary in which the two characters backslash, n do not occur (the
    text lcov prints, with its line feeds) is read as one segment: the
    parser returns at most one metric, the one of the first label of the
    chain that occurs anywhere in the text, with the second token of the
    whole text as its value; it raises when that token is no number. *)
Theorem parse_unsplit_summary summary σ :
  PyStr.contains PyStr.backslash_n summary = false →
  match metric_label summary, percent_field py_float summary with
  | Some k, Ret v =>
      ∃ l, (parse_summary py_float summary σ).1 = Ret l
           ∧ deref (parse_summary py_float summary σ).2 l = {[ k := v ]}
  | Some k, Raise e => (parse_summary py_float summary σ).1 = Raise e
  | None, _ =>
      ∃ l, (parse_summary py_float summary σ).1 = Ret l
           ∧ deref (parse_summary py_float summary σ).2 l = ∅
  end.
Proof.
  intros Hno. rewrite parse_summary_run. unfold PyStr.split.
  rewrite (split_aux_no_sep _ _ _ Hno).
  change (String.append EmptyString summary) with summary.
  cbn [scan_lines].
  destruct (metric_label summary) as [k|].
  - destruct (percent_field py_float summary) as [v|e]; cbn [fst snd];
      [|done].
    eexists. split; [done|]. rewrite deref_set_dict.
    by rewrite insert_empty.
  - cbn [fst snd]. eexists. split; [done|]. by rewrite deref_set_dict.
Qed.

End Unsplit.

Section MissingStage.

Import Coverage.

Variable py_float : string → option spec_float.
Variable w : world.
Variable root : string.

(** X16: a stage whose program cannot be launched ends the run.  If the
    command of a stage that is not skipped is missing and those called
    before it can be launched, [run_all_tests] raises [FileNotFoundError]
    right after that call: what it leaves is the directory and the stage
    commands up to the missing one, and no report.  The four cases are the
    unit, the integration, the performance and the memory command, the
    last one with the performance stage run or skipped. *)
Theorem run_all_tests_stage_missing sp sm σ :
  (sh w (pio_command "test-coverage") = Missing →
   run_all_tests py_float w root sp sm σ
   = (Raise FileNotFoundError,
      {| heap := heap σ;
         trace := trace σ ++ [ MkDir (coverage_dir root);
                               Exec (pio_command "test-coverage") ] |}))
  ∧ (launches w (pio_command "test-coverage") = true →
     sh w (pio_command "test-integration") = Missing →
     run_all_tests py_float w root sp sm σ
     = (Raise FileNotFoundError,
        {| heap := heap σ;
           trace := trace σ ++ [ MkDir (coverage_dir root);
                                 Exec (pio_command "test-coverage");
                                 Exec (pio_command "test-integration") ] |}))
  ∧ (launches w (pio_command "test-coverage") = true →
     launches w (pio_command "test-integration") = true →
     sp = false →
     sh w (pio_command "test-performance") = Missing →
     run_all_tests py_float w root sp sm σ
     = (Raise FileNotFoundError,
        {| heap := heap σ;
           trace := trace σ ++ [ MkDir (coverage_dir root);
                                 Exec (pio_command "test-coverage");
                                 Exec (pio_command "test-integration");
                                 Exec (pio_command "test-performance") ] |}))
  ∧ (launches w (pio_command "test-coverage") = true →
     launches w (pio_command "test-integration") = true →
     (sp = false → launches w (pio_command "test-performance") = true) →
     sm = false →
     sh w (pio_command "test-memory") = Missing →
     run_all_tests py_float w root sp sm σ
     = (Raise FileNotFoundError,
        {| heap := heap σ;
           trace := trace σ
                    ++ [ MkDir (coverage_dir root);
                         Exec (pio_command "test-coverage");
                         Exec (pio_command "test-integration") ]
                    ++ (if sp then []
                        else [Exec (pio_command "test-performance")])
                    ++ [Exec (pio_command "test-memory")] |})).
Proof.
  unfold launches, run_all_tests. repeat split.
  - intros Hu.
    rewrite run_bind, setup_coverage_environment_run.
    rewrite run_bind, run_unit_tests_run, Hu.
    unfold add_event. simpl. by rewrite <-app_assoc.
  - intros Hu Hi.
    rewrite run_bind, setup_coverage_environment_run.
    rewrite run_bind, run_unit_tests_run.
    destruct (sh w (pio_command "test-coverage")); [|discriminate].
    rewrite run_bind, run_integration_tests_run, Hi.
    unfold add_event. simpl. by rewrite <-!app_assoc.
  - intros Hu Hi -> Hp.
    rewrite run_bind, setup_coverage_environment_run.
    rewrite run_bind, run_unit_tests_run.
    destruct (sh w (pio_command "test-coverage")); [|discriminate].
    rewrite run_bind, run_integration_tests_run.
    destruct (sh w (pio_command "test-integration")); [|discriminate].
    rewrite run_bind. cbn [negb].
    rewrite run_performance_tests_run, Hp.
    unfold add_event. simpl. by rewrite <-!app_assoc.
  - intros Hu Hi Hp -> Hm.
    rewrite run_bind, setup_coverage_environment_run.
    rewrite run_bind, run_unit_tests_run.
    destruct (sh w (pio_command "test-coverage")); [|discriminate].
    rewrite run_bind, run_integration_tests_run.
    destruct (sh w (pio_command "test-integration")); [|discriminate].
    rewrite run_bind. destruct sp; cbn [negb].
    + rewrite run_ret.
      rewrite run_bind, run_memory_tests_run, Hm.
      unfold add_event. simpl. by rewrite <-!app_assoc.
    + rewrite run_performance_tests_run. specialize (Hp eq_refl).
      destruct (sh w (pio_command "test-performance")); [|discriminate].
      rewrite run_bind, run_memory_tests_run, Hm.
      unfold add_event. simpl. by rewrite <-!app_assoc.
Qed.

End MissingStage.

(** ** Skipped stages *)

Section SkippedStages.

Import Coverage.

Variable py_float : string → option spec_float.
Variable root : string.

Implicit Types (w : world) (σ : pystate) (sp sm : bool) (o : launch).

Lemma report_written (pre mid : list event) file r :
  WriteTestReport file r
    ∈ pre ++ mid ++ [Exec date_command; WriteTestReport file r].
Proof.
  apply elem_of_app. right. apply elem_of_app. right.
  apply elem_of_cons. right. apply elem_of_cons. by left.
Qed.

(** C9: with [skip_performance] set, nothing depends on what the
    performance command would do, the command is not run, and a report
    that is written says PASS for it; the same for [skip_memory] and the
    memory command.  This holds for every outcome of the other steps.
    And when the other programs can be launched, the report is written, it
    records the skipped stage as PASS, and the exit code is 0 exactly when
    the results of the remaining steps are all true: the skipped stage
    counts as passed. *)
Theorem skipped_stage_not_run_and_passes w sp sm σ :
  (∀ o, run_all_tests py_float
          (override w (pio_command "test-performance") o) root true sm σ
        = run_all_tests py_float w root true sm σ)
  ∧ Forall (λ ev, ev ≠ Exec (pio_command "test-performance")
                  ∧ ∀ file r, ev = WriteTestReport file r →
                              performance_tests r = "PASS")
      (emitted σ (run_all_tests py_float w root true sm σ).2)
  ∧ (∀ o, run_all_tests py_float
            (override w (pio_command "test-memory") o) root sp true σ
          = run_all_tests py_float w root sp true σ)
  ∧ Forall (λ ev, ev ≠ Exec (pio_command "test-memory")
                  ∧ ∀ file r, ev = WriteTestReport file r →
                              memory_tests r = "PASS")
      (emitted σ (run_all_tests py_float w root sp true σ).2)
  ∧ (launches w (pio_command "test-coverage") = true →
     launches w (pio_command "test-integration") = true →
     (sm = false → launches w (pio_command "test-memory") = true) →
     launches w date_command = true →
     (∃ file r,
        WriteTestReport file r
          ∈ emitted σ (run_all_tests py_float w root true sm σ).2
        ∧ performance_tests r = "PASS")
     ∧ (run_all_tests py_float w root true sm σ).1
       = Ret (if stage_passed w "test-coverage"
                 && stage_passed w "test-integration"
                 && (sm || stage_passed w "test-memory")
                 && coverage_generated w root
                 && thresholds_met
                      (if coverage_generated w root
                       then lcov_metrics py_float w root else None)
              then 0%Z else 1%Z))
  ∧ (launches w (pio_command "test-coverage") = true →
     launches w (pio_command "test-integration") = true →
     (sp = false → launches w (pio_command "test-performance") = true) →
     launches w date_command = true →
     (∃ file r,
        WriteTestReport file r
          ∈ emitted σ (run_all_tests py_float w root sp true σ).2
        ∧ memory_tests r = "PASS")
     ∧ (run_all_tests py_float w root sp true σ).1
       = Ret (if stage_passed w "test-coverage"
                 && stage_passed w "test-integration"
                 && (sp || stage_passed w "test-performance")
                 && coverage_generated w root
                 && thresholds_met
                      (if coverage_generated w root
                       then lcov_metrics py_float w root else None)
              then 0%Z else 1%Z)).
Proof.
  split; [|split; [|split; [|split; [|split]]]].
  - intros o. by apply run_all_tests_override.
  - destruct (emits_run_all_tests py_float root
                (λ ev, ev ≠ Exec (pio_command "test-performance")
                       ∧ ∀ file r, ev = WriteTestReport file r →
                                   performance_tests r = "PASS")
                w true sm) with (σ := σ) as (evs & Htr & Hev & _);
      try (intros; split; [discriminate|intros ? ? [=]]); try done.
    + subst. auto.
    + by rewrite (emitted_app _ _ _ Htr).
  - intros o. by apply run_all_tests_override.
  - destruct (emits_run_all_tests py_float root
                (λ ev, ev ≠ Exec (pio_command "test-memory")
                       ∧ ∀ file r, ev = WriteTestReport file r →
                                   memory_tests r = "PASS")
                w sp true) with (σ := σ) as (evs & Htr & Hev & _);
      try (intros; split; [discriminate|intros ? ? [=]]); try done.
    + subst. auto.
    + by rewrite (emitted_app _ _ _ Htr).
  - intros Hu Hi Hm Hd.
    assert (true = false → launches w (pio_command "test-performance") = true)
      as Hp by (intros [=]).
    split.
    + destruct (run_all_tests_shape py_float w root true sm σ Hu Hi Hp Hm Hd)
        as (mid & file & r & Htr & _ & _ & _ & Hperf & _).
      exists file, r. split; [|exact Hperf].
      rewrite Htr, !app_assoc, <-(app_assoc _ mid). apply report_written.
    + rewrite (run_all_tests_result py_float w root true sm σ Hu Hi Hp Hm Hd).
      cbn [orb]. by rewrite andb_true_r.
  - intros Hu Hi Hp Hd.
    assert (true = false → launches w (pio_command "test-memory") = true)
      as Hm by (intros [=]).
    split.
    + destruct (run_all_tests_shape py_float w root sp true σ Hu Hi Hp Hm Hd)
        as (mid & file & r & Htr & _ & _ & _ & _ & Hmem & _).
      exists file, r. split; [|by rewrite Hmem, orb_true_l].
      rewrite Htr, !app_assoc, <-(app_assoc _ mid). apply report_written.
    + rewrite (run_all_tests_result py_float w root sp true σ Hu Hi Hp Hm Hd).
      cbn [orb]. by rewrite andb_true_r.
Qed.

End SkippedStages.

(** ** More runs on concrete inputs *)

Import Integration CoverageMain.

Lemma phase_complete_iff_triggered_witness :
  (monitor MoreSamples.session test_phases).2 !! "theme_trigger" = Some true
  ∧ (monitor MoreSamples.session test_phases).2 !! "error_system"
    = Some false.
Proof.
  split.
  - etrans.
    + apply (phase_complete_iff_triggered MoreSamples.session "theme_trigger"
               [ "Theme changed to Night"; "KeyPresentActivate";
                 "LockEngagedActivate"; "Theme changed to Day" ]).
      compute_done.
    + vm_compute. reflexivity.
  - etrans.
    + apply (phase_complete_iff_triggered MoreSamples.session "error_system"
               [ "ErrorOccurredActivate"; "Error navigation";
                 "Error resolution" ]).
      compute_done.
    + vm_compute. reflexivity.
Defined.

Lemma update_raises_iff_phase_missing_witness :
  (update_test_phases "Gauge animation" test_phases).1 = Ret tt
  ∧ ∃ k, KeyError "startup" = KeyError k ∧ k ∈ patterns.*1
         ∧ (∅ : gmap string bool) !! k = None.
Proof.
  split.
  - apply (update_raises_iff_phase_missing "Gauge animation" test_phases).
    apply test_phases_tracks_all.
  - apply (update_raises_iff_phase_missing "Gauge animation" ∅).
    vm_compute. reflexivity.
Defined.

Lemma find_wokwi_cli_first_accepted_witness :
  find_wokwi_cli (MoreSamples.integration_world true MoreSamples.session 0)
  = Ret "/home/dev/bin/wokwi-cli".
Proof.
  etrans.
  - apply (find_wokwi_cli_first_accepted
             (MoreSamples.integration_world true MoreSamples.session 0)).
    intros path _. discriminate.
  - vm_compute. reflexivity.
Defined.

Lemma run_wokwi_test_verdict_witness :
  ∃ done,
    (run_wokwi_test
       (MoreSamples.integration_world true MoreSamples.session 0)
       "/home/dev/bin/wokwi-cli").2 = Some (done, 5%nat)
    ∧ (done ≤ 5)%nat.
Proof.
  apply (proj2 (run_wokwi_test_verdict
                  (MoreSamples.integration_world true MoreSamples.session 0)
                  "/home/dev/bin/wokwi-cli") MoreSamples.session 0%Z).
  vm_compute. reflexivity.
Defined.

Lemma integration_main_exit_code_witness :
  Integration.main
    (MoreSamples.integration_world false MoreSamples.session 0) = 0%Z.
Proof.
  apply (proj1 (integration_main_exit_code
                  (MoreSamples.integration_world false MoreSamples.session 0))).
  exists "/home/dev/bin/wokwi-cli". split; [vm_compute; reflexivity|].
  split.
  - right. split; [|reflexivity].
    exists {| returncode := 0; stdout := ""; stderr := "" |}.
    split; reflexivity.
  - exists MoreSamples.session. vm_compute. reflexivity.
Defined.

Lemma generate_coverage_report_total_witness :
  generate_coverage_report
    (Samples.sample_world Samples.all_pass false "") "." Samples.init
  = (Ret false, Samples.init).
Proof.
  apply (generate_coverage_report_total
           (Samples.sample_world Samples.all_pass false "") "." Samples.init).
  reflexivity.
Defined.

Lemma parse_coverage_results_total_witness :
  parse_coverage_results Samples.decimal_float
    (override (Samples.sample_world Samples.all_pass true Samples.one_line)
       (lcov_command ".")
       (Launched {| returncode := 1; stdout := Samples.one_line;
                    stderr := "lcov: warning" |})) "." Samples.init
  = parse_coverage_results Samples.decimal_float
      (Samples.sample_world Samples.all_pass true Samples.one_line) "."
      Samples.init.
Proof.
  apply (proj2 (proj2 (proj2 (parse_coverage_results_total
           Samples.decimal_float
           (Samples.sample_world Samples.all_pass true Samples.one_line)
           "." Samples.init)))
           {| returncode := 0; stdout := Samples.one_line; stderr := "" |}
           1%Z "lcov: warning").
  - vm_compute. reflexivity.
  - vm_compute. reflexivity.
Defined.

Lemma parse_keys_canonical_witness :
  dom (deref
         (parse_coverage_results Samples.decimal_float
            (Samples.sample_world Samples.all_pass true Samples.good_summary)
            "." Samples.init).2 1%positive)
    ⊆ {[ "line_coverage"; "function_coverage"; "branch_coverage" ]}.
Proof.
  apply (parse_keys_canonical Samples.decimal_float
           (Samples.sample_world Samples.all_pass true Samples.good_summary)
           "." Samples.init 1%positive).
  vm_compute. reflexivity.
Defined.

Lemma parse_last_occurrence_wins_witness :
  ∃ l, (parse_summary Samples.decimal_float MoreSamples.twice
          Samples.init).1 = Ret l
       ∧ deref (parse_summary Samples.decimal_float MoreSamples.twice
                  Samples.init).2 l !! "line_coverage" = Some f95.
Proof.
  apply (parse_last_occurrence_wins Samples.decimal_float MoreSamples.twice
           [ "lines......: 92.3% (100 of 108)";
             "functions..: 95.0% (19 of 20)" ]
           "lines......: 95.0% (19 of 20)" [] "line_coverage" f95
           Samples.init).
  - vm_compute. reflexivity.
  - vm_compute. reflexivity.
  - vm_compute. reflexivity.
  - vm_compute. reflexivity.
  - intros line' Hin. by apply elem_of_nil in Hin.
Defined.

Lemma validate_reads_table_metrics_only_witness :
  (validate_against thresholds (Some 1%positive)
     (Samples.with_dict MoreSamples.better)).1
  = (validate_against thresholds (Some 1%positive)
       (Samples.with_dict (delete "region_coverage" MoreSamples.better))).1.
Proof.
  apply (validate_reads_table_metrics_only thresholds
           (Samples.with_dict MoreSamples.better)
           (Samples.with_dict (delete "region_coverage" MoreSamples.better))
           1%positive 1%positive).
  - compute_done.
  - compute_done.
  - intros mt Hin.
    repeat (apply elem_of_cons in Hin as [->|Hin]; [compute_done|]).
    by apply elem_of_nil in Hin.
Defined.

Lemma run_all_tests_trace_shape_witness :
  ∃ mid file r,
    emitted Samples.init
      (run_all_tests Samples.decimal_float
         (Samples.sample_world Samples.unit_fails true Samples.good_summary)
         "." true false Samples.init).2
    = [ MkDir (coverage_dir ".");
        Exec (pio_command "test-coverage");
        Exec (pio_command "test-integration") ]
      ++ []
      ++ [Exec (pio_command "test-memory")]
      ++ mid
      ++ [Exec date_command; WriteTestReport file r]
    ∧ unit_tests r = "FAIL" ∧ performance_tests r = "PASS".
Proof.
  destruct (run_all_tests_trace_shape Samples.decimal_float
              (Samples.sample_world Samples.unit_fails true
                 Samples.good_summary) "." true false Samples.init)
    as (mid & file & r & Htr & _ & Hu & _ & Hp & _);
    [vm_compute; reflexivity | vm_compute; reflexivity
    | intros [=] | intros _; vm_compute; reflexivity
    | vm_compute; reflexivity |].
  exists mid, file, r. split; [exact Htr|]. split.
  - etrans; [exact Hu|]. vm_compute. reflexivity.
  - etrans; [exact Hp|]. vm_compute. reflexivity.
Defined.

Lemma main_modes_witness :
  CoverageMain.main Samples.decimal_float
    (Samples.sample_world Samples.unit_fails true Samples.good_summary)
    MoreSamples.unit_only_args Samples.init
  = (Ret 1%Z,
     add_event Samples.init (Exec (pio_command "test-coverage"))).
Proof.
  etrans.
  - apply (proj1 (main_modes Samples.decimal_float
                    (Samples.sample_world Samples.unit_fails true
                       Samples.good_summary)
                    MoreSamples.unit_only_args Samples.init)).
    reflexivity.
  - vm_compute. reflexivity.
Defined.

Lemma quick_main_fail_fast_witness :
  QuickTest.exit_status (λ _ _, QuickTest.Exited 0) = 0%Z
  ∧ ¬ QuickTest.simulate_cmd ∈ (QuickTest.main MoreSamples.build_times_out).2.
Proof.
  split.
  - destruct (quick_main_fail_fast (λ _ _, QuickTest.Exited 0))
      as (Hall & _ & _ & Hexit).
    apply Hexit, Hall. intros step _. reflexivity.
  - intros Hin.
    apply (quick_main_fail_fast MoreSamples.build_times_out) in Hin
      as (_ & _ & Hbuild).
    vm_compute in Hbuild. discriminate.
Defined.

Lemma validate_monotone_witness :
  (validate_against thresholds (Some 1%positive)
     (Samples.with_dict MoreSamples.better)).1 = Ret true.
Proof.
  apply (validate_monotone thresholds
           (Samples.with_dict MoreSamples.passing)
           (Samples.with_dict MoreSamples.better) 1%positive 1%positive).
  - compute_done.
  - intros mt Hin.
    repeat (apply elem_of_cons in Hin as [->|Hin];
            [vm_compute; reflexivity|]).
    by apply elem_of_nil in Hin.
  - vm_compute. reflexivity.
Defined.

Lemma parse_unsplit_summary_witness :
  ∃ l, (parse_summary Samples.decimal_float Samples.two_lines
          Samples.init).1 = Ret l
       ∧ deref (parse_summary Samples.decimal_float Samples.two_lines
                  Samples.init).2 l
         = {[ "line_coverage" := Samples.f92_3 ]}.
Proof.
  pose proof (parse_unsplit_summary Samples.decimal_float Samples.two_lines
                Samples.init) as Hone.
  assert (PyStr.contains PyStr.backslash_n Samples.two_lines = false) as Hno
    by (vm_compute; reflexivity).
  specialize (Hone Hno).
  assert (metric_label Samples.two_lines = Some "line_coverage") as Hk
    by (vm_compute; reflexivity).
  assert (percent_field Samples.decimal_float Samples.two_lines
          = Ret Samples.f92_3) as Hv by (vm_compute; reflexivity).
  rewrite Hk, Hv in Hone. exact Hone.
Defined.

Lemma run_all_tests_stage_missing_witness :
  run_all_tests Samples.decimal_float
    (override
       (Samples.sample_world Samples.all_pass true Samples.good_summary)
       (pio_command "test-memory") Missing) "." false false Samples.init
  = (Raise FileNotFoundError,
     {| heap := ∅;
        trace := []
                 ++ [ MkDir (coverage_dir ".");
                      Exec (pio_command "test-coverage");
                      Exec (pio_command "test-integration") ]
                 ++ [Exec (pio_command "test-performance")]
                 ++ [Exec (pio_command "test-memory")] |}).
Proof.
  apply (proj2 (proj2 (proj2 (run_all_tests_stage_missing
           Samples.decimal_float
           (override
              (Samples.sample_world Samples.all_pass true
                 Samples.good_summary)
              (pio_command "test-memory") Missing)
           "." false false Samples.init))));
    try (intros _); vm_compute; reflexivity.
Defined.

(** A run that skips the performance stage on a machine where its command
    could not even be launched: the report is written with PASS for it and
    the run returns 0. *)
Lemma skipped_stage_not_run_and_passes_witness :
  (∃ file r,
     WriteTestReport file r
       ∈ emitted Samples.init
           (run_all_tests Samples.decimal_float
              (override
                 (Samples.sample_world Samples.all_pass true
                    Samples.good_summary)
                 (pio_command "test-performance") Missing)
              "." true false Samples.init).2
     ∧ performance_tests r = "PASS")
  ∧ (run_all_tests Samples.decimal_float
       (override
          (Samples.sample_world Samples.all_pass true Samples.good_summary)
          (pio_command "test-performance") Missing)
       "." true false Samples.init).1 = Ret 0%Z.
Proof.
  destruct (skipped_stage_not_run_and_passes Samples.decimal_float "."
              (override
                 (Samples.sample_world Samples.all_pass true
                    Samples.good_summary)
                 (pio_command "test-performance") Missing)
              true false Samples.init)
    as (_ & _ & _ & _ & Hskip & _).
  destruct Hskip as [Hrep Hcode];
    [vm_compute; reflexivity | vm_compute; reflexivity
    | intros _; vm_compute; reflexivity | vm_compute; reflexivity |].
  split; [exact Hrep|].
  etrans; [exact Hcode|]. vm_compute. reflexivity.
Defined.
